(** * SCITT hashed signed statements (server/links/scitt)

    A shallow embedding of [create_hashed_signed_statement.py]: the
    construction of the protected header of a COSE Sign1 hash envelope,
    the hand-over of the statement to the COSE library, and the command
    line driver that reads the inputs and stores the signed statement.

    Python values are a small tagged union, dictionaries are insertion
    ordered association lists, exceptions are an error result, and the
    file system, the standard output and the entropy consumed by ECDSA
    signing are threaded explicitly through a state-and-error monad. *)

From stdpp Require Import gmap strings list.
From Stdlib Require Import ZArith Strings.Byte.

Set Default Proof Using "Type".
Set Warnings "-register-all".

(** ** Values *)

Abbreviation bytes := (list byte) (only parsing).

(** The [pycose] attribute classes used as dictionary keys. *)
Inductive cose_attr : Set :=
  | Algorithm | KID
  | KpKty | KpKeyOps | EC2KpCurve | EC2KpX | EC2KpY | EC2KpD.

(** The [pycose] classes used as dictionary values. *)
Inductive cose_const : Set :=
  | Es256 | P256 | KtyEC2 | SignOp | VerifyOp.

(** Hashable Python objects that occur as dictionary keys. *)
Inductive key : Set :=
  | KInt (z : Z)
  | KStr (s : string)
  | KAttr (a : cose_attr).

Inductive pyval : Set :=
  | VNone
  | VInt (z : Z)
  | VStr (s : string)
  | VBytes (b : bytes)
  | VConst (c : cose_const)
  | VList (l : list pyval)
  | VDict (d : list (key * pyval)).

Definition cose_attr_eqb (a b : cose_attr) : bool :=
  match a, b with
  | Algorithm, Algorithm | KID, KID | KpKty, KpKty | KpKeyOps, KpKeyOps
  | EC2KpCurve, EC2KpCurve | EC2KpX, EC2KpX | EC2KpY, EC2KpY
  | EC2KpD, EC2KpD => true
  | _, _ => false
  end.

Definition key_eqb (j k : key) : bool :=
  match j, k with
  | KInt x, KInt y => Z.eqb x y
  | KStr s, KStr t => String.eqb s t
  | KAttr a, KAttr b => cose_attr_eqb a b
  | _, _ => false
  end.

(** ** Dictionaries

    A [dict] keeps its entries in insertion order; assigning to a key that
    is already present replaces the value where the key stands. *)

Abbreviation dict := (list (key * pyval)) (only parsing).

Fixpoint dict_get (k : key) (d : dict) : option pyval :=
  match d with
  | [] => None
  | (j, v) :: d' => if key_eqb j k then Some v else dict_get k d'
  end.

Fixpoint dict_set (k : key) (v : pyval) (d : dict) : dict :=
  match d with
  | [] => [(k, v)]
  | (j, u) :: d' =>
      if key_eqb j k then (j, v) :: d' else (j, u) :: dict_set k v d'
  end.

(** A dictionary display [{k1: v1, ..., kn: vn}] stores its entries from
    left to right. *)
Definition dict_literal (entries : dict) : dict :=
  fold_left (fun d kv => dict_set kv.1 kv.2 d) entries [].

Definition dict_keys (d : dict) : list key := d.*1.

(** [v[k]] for a dictionary value, and [v[k1][k2]...] along a path. *)
Definition py_getitem (v : pyval) (k : key) : option pyval :=
  match v with
  | VDict d => dict_get k d
  | _ => None
  end.

Definition py_keys (v : pyval) : list key :=
  match v with
  | VDict d => dict_keys d
  | _ => []
  end.

Fixpoint py_path (v : pyval) (path : list key) : option pyval :=
  match path with
  | [] => Some v
  | k :: path' =>
      match py_getitem v k with
      | Some u => py_path u path'
      | None => None
      end
  end.

(** [b[lo:hi]] for non-negative bounds. *)
Definition slice {A} (lo hi : nat) (b : list A) : list A :=
  take (hi - lo) (drop lo b).

Definition b_ (s : string) : bytes := String.list_byte_of_string s.

(** ** Header labels *)

Definition HEADER_LABEL_CWT : Z := 13.
Definition HEADER_LABEL_CWT_ISSUER : Z := 1.
Definition HEADER_LABEL_CWT_SUBJECT : Z := 2.
Definition HEADER_LABEL_CWT_CNF : Z := 8.
Definition HEADER_LABEL_CNF_COSE_KEY : Z := 1.
Definition HEADER_LABEL_COSE_ALG_SHA256 : Z := -16.
Definition HEADER_LABEL_COSE_ALG_SHA384 : Z := -43.
Definition HEADER_LABEL_COSE_ALG_SHA512 : Z := -44.
Definition HEADER_LABEL_COSE_ALG_SHA512_256 : Z := -17.
Definition HEADER_LABEL_PAYLOAD_HASH_ALGORITHM : Z := -6800.
Definition HEADER_LABEL_PAYLOAD_LOCATION : Z := -6801.
Definition HEADER_LABEL_PAYLOAD_PRE_CONTENT_TYPE : Z := -6802.
Definition HEADER_LABEL_META_MAP : Z := -6804.

(** ** Exceptions and the world *)

Inductive exn : Set :=
  | AssertionError
  | UnboundLocalError (name : string)
  | FileNotFoundError (path : string)
  | UnicodeDecodeError
  | LibraryError (msg : string).

Inductive result (A : Type) : Type :=
  | Ok (a : A)
  | Raise (e : exn).
Arguments Ok {A} a.
Arguments Raise {A} e.

(** What a run can observe and change: the files, the lines printed, and
    the state of the system's random generator that ECDSA draws from. *)
Record World : Type := mkWorld {
  files : gmap string bytes;
  stdout : list (list pyval);
  rng : N;
}.

Definition set_files (f : gmap string bytes → gmap string bytes) (w : World) : World :=
  mkWorld (f (files w)) (stdout w) (rng w).
Definition set_stdout (f : list (list pyval) → list (list pyval)) (w : World) : World :=
  mkWorld (files w) (f (stdout w)) (rng w).
Definition set_rng (n : N) (w : World) : World :=
  mkWorld (files w) (stdout w) n.

Definition M (A : Type) : Type := World → result A * World.

#[global] Instance M_ret : MRet M := λ A a w, (Ok a, w).
#[global] Instance M_bind : MBind M := λ A B f m w,
  match m w with
  | (Ok a, w') => f a w'
  | (Raise e, w') => (Raise e, w')
  end.

Definition raise {A} (e : exn) : M A := λ w, (Raise e, w).
Definition lift {A} (r : result A) : M A := λ w, (r, w).
Definition get_world : M World := λ w, (Ok w, w).
Definition modify_world (f : World → World) : M unit := λ w, (Ok tt, f w).

(** ** Keys of the [ecdsa] library

    [to_string()] of a verifying key is the concatenation of the two
    public coordinates; [to_string()] of a signing key is the private
    scalar. *)

Record VerifyingKey : Set := mkVerifyingKey {
  vk_to_string : bytes;
}.

Record SigningKey : Set := mkSigningKey {
  verifying_key : option VerifyingKey;
  sk_to_string : bytes;
}.

(** ** The COSE library

    [Sign1Message(phdr=..., payload=...)] followed by the assignment of
    [key] is a record; [CoseKey.from_dict] and [encode], which signs, are
    the library's. Signing draws a nonce and so steps the random
    generator. *)

Record CoseKey : Set := mkCoseKey {
  key_params : pyval;
}.

Record Sign1Message : Set := mkSign1Message {
  phdr : pyval;
  payload : pyval;
  msg_key : option CoseKey;
}.

Class PyCose : Type := {
  CoseKey_from_dict : pyval → result CoseKey;
  Sign1Message_encode : Sign1Message → N → result bytes * N;
}.

(** ** [create_hashed_signed_statement] *)

(** The arguments of a call; [None] is an argument left out, for the
    parameters that have a default. *)
Record call_args : Set := mkCallArgs {
  arg_issuer : pyval;
  arg_signing_key : SigningKey;
  arg_subject : pyval;
  arg_kid : option pyval;
  arg_meta_map : option pyval;
  arg_payload : option pyval;
  arg_payload_hash_alg : option pyval;
  arg_payload_location : option pyval;
  arg_pre_image_content_type : option pyval;
}.

(** The parameters after the defaults of the signature are applied. *)
Definition kid_of (a : call_args) : pyval :=
  default (VBytes (b_ "testkey")) (arg_kid a).
Definition meta_map_of (a : call_args) : pyval :=
  default VNone (arg_meta_map a).
Definition payload_of (a : call_args) : pyval :=
  default VNone (arg_payload a).
Definition payload_hash_alg_of (a : call_args) : pyval :=
  default (VStr "SHA-256") (arg_payload_hash_alg a).
Definition payload_location_of (a : call_args) : pyval :=
  default VNone (arg_payload_location a).
Definition pre_image_content_type_of (a : call_args) : pyval :=
  default VNone (arg_pre_image_content_type a).

(** The [match payload_hash_alg] statement: it binds the local
    [payload_hash_alg_label] in three cases and has no other case, so the
    local stays unbound ([None]) for every other subject. *)
Definition match_payload_hash_alg (payload_hash_alg : pyval) : option Z :=
  match payload_hash_alg with
  | VStr s =>
      if String.eqb s "SHA-256" then Some HEADER_LABEL_COSE_ALG_SHA256
      else if String.eqb s "SHA-384" then Some HEADER_LABEL_COSE_ALG_SHA384
      else if String.eqb s "SHA-512" then Some HEADER_LABEL_COSE_ALG_SHA512
      else None
  | _ => None
  end.

(** Reading a local variable that no assignment has bound. *)
Definition read_local {A} (name : string) (v : option A) : M A :=
  match v with
  | Some x => mret x
  | None => raise (UnboundLocalError name)
  end.

(** The embedded COSE key of the confirmation claim. *)
Definition cnf_cose_key (x_part y_part : bytes) : pyval :=
  VDict (dict_literal [
    (KAttr KpKty, VConst KtyEC2);
    (KAttr EC2KpCurve, VConst P256);
    (KAttr EC2KpX, VBytes x_part);
    (KAttr EC2KpY, VBytes y_part)
  ]).

Definition cwt_claims (issuer subject : pyval) (x_part y_part : bytes) : pyval :=
  VDict (dict_literal [
    (KInt HEADER_LABEL_CWT_ISSUER, issuer);
    (KInt HEADER_LABEL_CWT_SUBJECT, subject);
    (KInt HEADER_LABEL_CWT_CNF,
      VDict (dict_literal [
        (KInt HEADER_LABEL_CNF_COSE_KEY, cnf_cose_key x_part y_part)
      ]))
  ]).

(** The local variables alive after the protected header is built. *)
Record locals : Set := mkLocals {
  x_part : bytes;
  y_part : bytes;
  protected_header : pyval;
}.

(** From the entry of the function to the end of the [protected_header]
    display. The entries of the display are evaluated in order, so the CWT
    claims are built before [payload_hash_alg_label] is read. *)
Definition build_protected_header (a : call_args) : M locals :=
  let signing_key := arg_signing_key a in
  match verifying_key signing_key with
  | None => raise AssertionError
  | Some verifying_key =>
      let xy_parts := vk_to_string verifying_key in
      let x_part := slice 0 32 xy_parts in
      let y_part := slice 32 64 xy_parts in
      let payload_hash_alg_label := match_payload_hash_alg (payload_hash_alg_of a) in
      cwt ← mret (cwt_claims (arg_issuer a) (arg_subject a) x_part y_part);
      label ← read_local "payload_hash_alg_label" payload_hash_alg_label;
      mret (mkLocals x_part y_part (VDict (dict_literal [
        (KAttr Algorithm, VConst Es256);
        (KAttr KID, kid_of a);
        (KInt HEADER_LABEL_PAYLOAD_PRE_CONTENT_TYPE, pre_image_content_type_of a);
        (KInt HEADER_LABEL_CWT, cwt);
        (KInt HEADER_LABEL_PAYLOAD_HASH_ALGORITHM, VInt label);
        (KInt HEADER_LABEL_PAYLOAD_LOCATION, payload_location_of a);
        (KInt HEADER_LABEL_META_MAP, meta_map_of a)
      ])))
  end.

(** The value of the header display when [payload_hash_alg_label] is
    bound to [label]. *)
Definition header_display (a : call_args) (x y : bytes) (label : Z) : pyval :=
  VDict [
    (KAttr Algorithm, VConst Es256);
    (KAttr KID, kid_of a);
    (KInt HEADER_LABEL_PAYLOAD_PRE_CONTENT_TYPE, pre_image_content_type_of a);
    (KInt HEADER_LABEL_CWT, cwt_claims (arg_issuer a) (arg_subject a) x y);
    (KInt HEADER_LABEL_PAYLOAD_HASH_ALGORITHM, VInt label);
    (KInt HEADER_LABEL_PAYLOAD_LOCATION, payload_location_of a);
    (KInt HEADER_LABEL_META_MAP, meta_map_of a)
  ].

(** Every way in which the header stage can end. *)
Inductive header_outcome (a : call_args) : result locals → Prop :=
  | outcome_no_key :
      verifying_key (arg_signing_key a) = None →
      header_outcome a (Raise AssertionError)
  | outcome_unbound vk :
      verifying_key (arg_signing_key a) = Some vk →
      match_payload_hash_alg (payload_hash_alg_of a) = None →
      header_outcome a (Raise (UnboundLocalError "payload_hash_alg_label"))
  | outcome_built vk label :
      verifying_key (arg_signing_key a) = Some vk →
      match_payload_hash_alg (payload_hash_alg_of a) = Some label →
      header_outcome a
        (Ok (mkLocals (slice 0 32 (vk_to_string vk)) (slice 32 64 (vk_to_string vk))
               (header_display a (slice 0 32 (vk_to_string vk))
                  (slice 32 64 (vk_to_string vk)) label))).

(** The dictionary handed to [CoseKey.from_dict]. *)
Definition signing_cose_key (signing_key : SigningKey) (x_part y_part : bytes) : pyval :=
  VDict (dict_literal [
    (KAttr KpKty, VConst KtyEC2);
    (KAttr EC2KpCurve, VConst P256);
    (KAttr KpKeyOps, VList [VConst SignOp; VConst VerifyOp]);
    (KAttr EC2KpD, VBytes (sk_to_string signing_key));
    (KAttr EC2KpX, VBytes x_part);
    (KAttr EC2KpY, VBytes y_part)
  ]).

Section Create.
Context `{cose : PyCose}.

(** The library's [encode]: it signs with entropy taken from the world
    and leaves the rest of the world alone. *)
Definition encode (statement : Sign1Message) : M bytes := λ w,
  let '(r, n) := Sign1Message_encode statement (rng w) in (r, set_rng n w).

(** The Sign1 message with its key set, as it stands before [encode]. *)
Definition build_statement (a : call_args) : M Sign1Message :=
  l ← build_protected_header a;
  let statement := mkSign1Message (protected_header l) (payload_of a) None in
  cose_key ← lift (CoseKey_from_dict
                     (signing_cose_key (arg_signing_key a) (x_part l) (y_part l)));
  mret (mkSign1Message (phdr statement) (payload statement) (Some cose_key)).

Definition create_hashed_signed_statement (a : call_args) : M bytes :=
  statement ← build_statement a;
  signed_statement ← encode statement;
  mret signed_statement.
End Create.

(** ** The command line driver *)

(** What [main] takes from the interpreter and its libraries: the UTF-8
    codec behind text files and [str.encode], [json.loads],
    [SigningKey.from_pem] and [hashlib.sha256]. *)
Class Platform : Type := {
  utf8_decode : bytes → option string;
  utf8_encode : string → bytes;
  json_loads : string → result pyval;
  SigningKey_from_pem : string → result SigningKey;
  sha256_digest : bytes → bytes;
}.

(** The flags as given on the command line; [None] is a flag left out. *)
Record argv : Set := mkArgv {
  flag_content_type : option string;
  flag_issuer : option string;
  flag_kid : option string;
  flag_meta_map_file : option string;
  flag_output_file : option string;
  flag_payload_file : option string;
  flag_payload_location : option string;
  flag_signing_key_file : option string;
  flag_subject : option string;
}.

(** The namespace returned by [parse_args]: every flag is a [str] when
    given, and its declared default (or [None]) otherwise. *)
Record Namespace : Set := mkNamespace {
  content_type : pyval;
  issuer : pyval;
  kid : pyval;
  meta_map_file : option string;
  output_file : string;
  payload_file : string;
  payload_location : pyval;
  signing_key_file : string;
  subject : pyval;
}.

Definition str_or (d : pyval) (o : option string) : pyval :=
  match o with
  | Some s => VStr s
  | None => d
  end.

Definition parse_args (f : argv) : Namespace := {|
  content_type := str_or (VStr "application/json") (flag_content_type f);
  issuer := str_or VNone (flag_issuer f);
  kid := str_or (VBytes (b_ "testkey")) (flag_kid f);
  meta_map_file := flag_meta_map_file f;
  output_file := default "signed-statement.cbor" (flag_output_file f);
  payload_file := default "scitt-payload.json" (flag_payload_file f);
  payload_location := str_or VNone (flag_payload_location f);
  signing_key_file := default "scitt-signing-key.pem" (flag_signing_key_file f);
  subject := str_or VNone (flag_subject f);
|}.

(** [print(...)]: one line on the standard output. *)
Definition print (line : list pyval) : M unit :=
  modify_world (set_stdout (λ out, out ++ [line])).

(** [with open(path, "wb") as f: f.write(data)]: opening creates the file
    or empties it, writing appends at the position of the handle. *)
Definition open_wb (path : string) : M unit :=
  modify_world (set_files (λ fs, <[path := []]> fs)).

Definition handle_write (path : string) (data : bytes) : M unit :=
  modify_world (set_files (λ fs, <[path := default [] (fs !! path) ++ data]> fs)).

Definition write_binary (path : string) (data : bytes) : M unit :=
  _ ← open_wb path;
  handle_write path data.

(** The call that [main] makes. *)
Definition main_call (args : Namespace) (signing_key : SigningKey)
    (payload_hash : bytes) (meta_map_dict : pyval) : call_args := {|
  arg_kid := Some (kid args);
  arg_pre_image_content_type := Some (content_type args);
  arg_issuer := issuer args;
  arg_payload_hash_alg := Some (VStr "SHA-256");
  arg_payload := Some (VBytes payload_hash);
  arg_payload_location := Some (payload_location args);
  arg_signing_key := signing_key;
  arg_subject := subject args;
  arg_meta_map := Some meta_map_dict;
|}.

Section Main.
Context `{cose : PyCose} `{platform : Platform}.

(** [open(path, encoding="UTF-8").read()] *)
Definition read_text (path : string) : M string :=
  w ← get_world;
  match files w !! path with
  | None => raise (FileNotFoundError path)
  | Some raw =>
      match utf8_decode raw with
      | None => raise UnicodeDecodeError
      | Some text => mret text
      end
  end.

Definition open_signing_key (key_file : string) : M SigningKey :=
  pem ← read_text key_file;
  signing_key ← lift (SigningKey_from_pem pem);
  mret signing_key.

Definition read_file (payload_file : string) : M string :=
  read_text payload_file.

Definition main (f : argv) : M unit :=
  let args := parse_args f in
  meta_map_dict ←
    match meta_map_file args with
    | Some path => text ← read_file path; lift (json_loads text)
    | None => mret (VDict (dict_literal []))
    end;
  _ ← print [VStr "meta_map:"; meta_map_dict];
  signing_key ← open_signing_key (signing_key_file args);
  payload_contents ← read_file (payload_file args);
  let payload_hash := sha256_digest (utf8_encode payload_contents) in
  signed_statement ←
    create_hashed_signed_statement
      (main_call args signing_key payload_hash meta_map_dict);
  write_binary (output_file args) signed_statement.
End Main.

(** The [if args.meta_map_file is not None] statement of [main]: what
    [meta_map_dict] is bound to when the statement ends normally. *)
Inductive meta_map_loaded `{platform : Platform}
    (f : argv) (fs : gmap string (list byte)) : pyval → Prop :=
  | meta_map_absent :
      flag_meta_map_file f = None →
      meta_map_loaded f fs (VDict [])
  | meta_map_read path raw text meta :
      flag_meta_map_file f = Some path →
      fs !! path = Some raw →
      utf8_decode raw = Some text →
      json_loads text = Ok meta →
      meta_map_loaded f fs meta.

(** The world after [print("meta_map:", meta_map_dict)]. *)
Definition printed (meta : pyval) (w : World) : World :=
  set_stdout (λ out, out ++ [[VStr "meta_map:"; meta]]) w.

(** ** Sample inputs

    Stand-ins for the libraries, two keys and a world, used to run the
    embedding on concrete inputs. *)

Definition sample_cose : PyCose := {|
  CoseKey_from_dict := λ d, Ok (mkCoseKey d);
  Sign1Message_encode := λ statement n,
    (Ok (match payload statement with VBytes b => b | _ => [] end), N.succ n);
|}.

(** A library whose encoder fails while signing. *)
Definition refusing_cose : PyCose := {|
  CoseKey_from_dict := λ d, Ok (mkCoseKey d);
  Sign1Message_encode := λ _ n, (Raise (LibraryError "sign"), n);
|}.

Definition p256_signing_key : SigningKey := {|
  verifying_key := Some (mkVerifyingKey (replicate 32 x11 ++ replicate 32 x77));
  sk_to_string := replicate 32 x33;
|}.


Definition sample_platform : Platform := {|
  utf8_decode := λ raw, Some (String.string_of_list_byte raw);
  utf8_encode := String.list_byte_of_string;
  json_loads := λ _, Ok (VDict (dict_literal [(KStr "k", VStr "v")]));
  SigningKey_from_pem := λ _, Ok p256_signing_key;
  sha256_digest := λ data, take 32 (data ++ replicate 32 x00);
|}.

Definition sample_args (signing_key : SigningKey) (alg : option pyval) : call_args := {|
  arg_issuer := VStr "issuer";
  arg_signing_key := signing_key;
  arg_subject := VStr "subject";
  arg_kid := None;
  arg_meta_map := None;
  arg_payload := Some (VBytes (b_ "digest"));
  arg_payload_hash_alg := alg;
  arg_payload_location := None;
  arg_pre_image_content_type := None;
|}.

Definition empty_world : World := mkWorld ∅ [] 0.

Definition sample_world : World :=
  mkWorld (<["scitt-signing-key.pem" := b_ "pem"]>
           (<["scitt-payload.json" := b_ "hello"]> ∅)) [] 0.

Definition no_flags : argv :=
  mkArgv None None None None None None None None None.

(** A key object whose verifying key was never set. *)
Definition keyless_signing_key : SigningKey := {|
  verifying_key := None;
  sk_to_string := replicate 32 x33;
|}.

(** A platform whose JSON parser accepts the empty object only. *)
Definition strict_json_platform : Platform := {|
  utf8_decode := λ raw, Some (String.string_of_list_byte raw);
  utf8_encode := String.list_byte_of_string;
  json_loads := λ text,
    if String.eqb text "{}" then Ok (VDict [])
    else Raise (LibraryError "JSONDecodeError");
  SigningKey_from_pem := λ _, Ok p256_signing_key;
  sha256_digest := λ data, take 32 (data ++ replicate 32 x00);
|}.

(** The command line [--meta-map-file path]. *)
Definition meta_flag (path : string) : argv :=
  mkArgv None None None (Some path) None None None None None.

(** * The DataTrails link (server/links/datatrails)

    A shallow embedding of [datatrails/__init__.py]: the token cache of
    [DataTrailsAuth], the two calls that create an asset and an event, and
    [run], which ties a vCon from Redis to its asset. The HTTP servers, the
    clock, the vCon library and Redis are the environment: requests are
    logged and answered by a function of the history, the clock is the
    sequence of its readings, and the vCon library is an interface. *)

Module DataTrails.

(** ** Values: what JSON carries, without fractions *)

Inductive value : Set :=
  | JNone
  | JBool (b : bool)
  | JInt (z : Z)
  | JStr (s : string)
  | JList (l : list value)
  | JDict (d : list (string * value)).

Abbreviation sdict := (list (string * value)) (only parsing).

(** [bool(v)] *)
Definition truthy (v : value) : bool :=
  match v with
  | JNone => false
  | JBool b => b
  | JInt z => negb (Z.eqb z 0)
  | JStr s => negb (String.eqb s "")
  | JList l => match l with [] => false | _ => true end
  | JDict d => match d with [] => false | _ => true end
  end.

Definition is_None (v : value) : bool :=
  match v with
  | JNone => true
  | _ => false
  end.

(** [a or b] *)
Definition py_or (a b : value) : value := if truthy a then a else b.

Fixpoint sdict_get (k : string) (d : sdict) : option value :=
  match d with
  | [] => None
  | (j, v) :: d' => if String.eqb j k then Some v else sdict_get k d'
  end.

Fixpoint sdict_set (k : string) (v : value) (d : sdict) : sdict :=
  match d with
  | [] => [(k, v)]
  | (j, u) :: d' =>
      if String.eqb j k then (j, v) :: d' else (j, u) :: sdict_set k v d'
  end.

(** [d.update(e)], and also [{**d, **e}]: the entries of [e] are stored
    into [d] from left to right. *)
Definition sdict_update (d e : sdict) : sdict :=
  fold_left (fun acc kv => sdict_set kv.1 kv.2 acc) e d.

(** ** Exceptions *)

Inductive exn : Set :=
  | ValueError (msg : string)
  | HTTPException (status_code : Z) (detail : string)
  | HTTPError (status_code : Z)
  | KeyError (k : string)
  | TypeError
  | AttributeError
  | OverflowError
  | ExternalError (msg : string).

Inductive result (A : Type) : Type :=
  | Ok (a : A)
  | Raise (e : exn).
Arguments Ok {A} a.
Arguments Raise {A} e.

(** [v[k]] for a string [k] *)
Definition subscript (v : value) (k : string) : result value :=
  match v with
  | JDict d =>
      match sdict_get k d with
      | Some u => Ok u
      | None => Raise (KeyError k)
      end
  | _ => Raise TypeError
  end.

(** [v.copy()] followed by [.update(e)], for the option dictionaries. *)
Definition copy_update (v : value) (e : sdict) : result sdict :=
  match v with
  | JDict d => Ok (sdict_update d e)
  | _ => Raise AttributeError
  end.

(** [{k: x, **attributes}] *)
Definition with_defaults (k : string) (x : value) (attributes : value) : result sdict :=
  match attributes with
  | JDict d => Ok (sdict_update [(k, x)] d)
  | _ => Raise TypeError
  end.

(** ** Requests *)

Inductive body : Set :=
  | FormData (data : sdict)
  | JsonBody (payload : value).

Record request : Set := mkRequest {
  req_url : value;
  req_headers : list (string * string);
  req_body : body;
}.

Record response : Type := mkResponse {
  status_code : Z;
  json : result value;
}.

(** ** Time

    A [datetime] is the number of microseconds since 0001-01-01T00:00; the
    last one is 9999-12-31T23:59:59.999999. *)

Definition datetime_max : Z := 3652059 * 86400 * 1000000 - 1.

(** [timedelta(seconds=n)] for an integer [n], in microseconds. *)
Definition timedelta_seconds (n : Z) : result Z :=
  if (Z.leb (-999999999) (n / 86400) && Z.leb (n / 86400) 999999999)%bool
  then Ok (n * 1000000)%Z
  else Raise OverflowError.

(** [t + delta] *)
Definition datetime_add (t delta : Z) : result Z :=
  if (Z.leb 0 (t + delta) && Z.leb (t + delta) datetime_max)%bool
  then Ok (t + delta)%Z
  else Raise OverflowError.

(** [v - n] for an integer [n] *)
Definition py_sub (v : value) (n : Z) : result Z :=
  match v with
  | JInt z => Ok (z - n)%Z
  | JBool b => Ok ((if b then 1 else 0) - n)%Z
  | _ => Raise TypeError
  end.

(** ** The objects and the environment *)

Record Auth : Set := mkAuth {
  auth_url : value;
  client_id : value;
  client_secret : value;
  token : value;
  token_expiry : option Z;
}.

(** What the interpreter and the libraries provide: [str()] as used by
    f-strings, [os.path], the mode of a fresh directory, and the vCon
    library with its Redis store. *)
Class Externals : Type := {
  str_of : value → string;
  str_of_JStr : ∀ s, str_of (JStr s) = s;
  expanduser : string → string;
  path_join : string → string → string;
  fresh_dir_mode : Z;
  Vcon : Type;
  Redis : Type;
  get_vcon : Redis → string → result (option Vcon);
  store_vcon : Redis → Vcon → result Redis;
  get_tag : Vcon → string → value;
  add_tag : Vcon → string → value → Vcon;
  vcon_subject : Vcon → value;
  vcon_hash : Vcon → value;
  vcon_updated_at : Vcon → value;
  vcon_created_at : Vcon → value;
}.

Section Link.
Context `{ext : Externals}.

(** The state of a run: the one [DataTrailsAuth] object, the requests
    sent so far (oldest first) and how the servers answer, the readings
    of the clock still to come, directories with their modes, text files,
    Redis, and the lines logged. *)
Record Env : Type := mkEnv {
  auth : Auth;
  sent : list request;
  server : list request → request → result response;
  time_at : nat → Z;
  clock_reads : nat;
  dir_modes : gmap string Z;
  text_files : gmap string string;
  redis : Redis;
  logged : list string;
}.

Definition M (A : Type) : Type := Env → result A * Env.

#[export] Instance M_ret : MRet M := λ A a s, (Ok a, s).
#[export] Instance M_bind : MBind M := λ A B f m s,
  match m s with
  | (Ok a, s') => f a s'
  | (Raise e, s') => (Raise e, s')
  end.

Definition raise {A} (e : exn) : M A := λ s, (Raise e, s).
Definition lift {A} (r : result A) : M A := λ s, (r, s).
Definition get_env : M Env := λ s, (Ok s, s).
Definition modify (f : Env → Env) : M unit := λ s, (Ok tt, f s).

Definition set_auth (a : Auth) (s : Env) : Env :=
  mkEnv a (sent s) (server s) (time_at s) (clock_reads s) (dir_modes s)
    (text_files s) (redis s) (logged s).
Definition set_sent (l : list request) (s : Env) : Env :=
  mkEnv (auth s) l (server s) (time_at s) (clock_reads s) (dir_modes s)
    (text_files s) (redis s) (logged s).
Definition set_clock_reads (n : nat) (s : Env) : Env :=
  mkEnv (auth s) (sent s) (server s) (time_at s) n (dir_modes s)
    (text_files s) (redis s) (logged s).
Definition set_dir_modes (d : gmap string Z) (s : Env) : Env :=
  mkEnv (auth s) (sent s) (server s) (time_at s) (clock_reads s) d
    (text_files s) (redis s) (logged s).
Definition set_text_files (f : gmap string string) (s : Env) : Env :=
  mkEnv (auth s) (sent s) (server s) (time_at s) (clock_reads s) (dir_modes s)
    f (redis s) (logged s).
Definition set_redis (r : Redis) (s : Env) : Env :=
  mkEnv (auth s) (sent s) (server s) (time_at s) (clock_reads s) (dir_modes s)
    (text_files s) r (logged s).
Definition set_logged (l : list string) (s : Env) : Env :=
  mkEnv (auth s) (sent s) (server s) (time_at s) (clock_reads s) (dir_modes s)
    (text_files s) (redis s) l.

(** [logger.info(line)] *)
Definition logger_info (line : string) : M unit :=
  modify (λ s, set_logged (logged s ++ [line]) s).

(** [datetime.now()] *)
Definition datetime_now : M Z := λ s,
  (Ok (time_at s (clock_reads s)), set_clock_reads (S (clock_reads s)) s).

(** [requests.post(...)]: the request goes out and the server answers, or
    the exchange fails. *)
Definition requests_post (r : request) : M response := λ s,
  (server s (sent s) r, set_sent (sent s ++ [r]) s).

(** [response.raise_for_status()] *)
Definition raise_for_status (r : response) : M unit :=
  if (Z.leb 400 (status_code r) && Z.ltb (status_code r) 600)%bool
  then raise (HTTPError (status_code r))
  else mret tt.

(** ** [DataTrailsAuth] *)

Definition DataTrailsAuth_init (auth_url client_id client_secret : value) : M unit :=
  modify (set_auth (mkAuth auth_url client_id client_secret JNone None)).

(** The client-credentials request of [_refresh_token]. *)
Definition token_request (self : Auth) : request :=
  mkRequest (auth_url self) []
    (FormData [("grant_type", JStr "client_credentials");
               ("client_id", client_id self);
               ("client_secret", client_secret self)]).

Definition datatrails_dir : string := expanduser "~/.datatrails".
Definition token_file : string := path_join datatrails_dir "bearer-token.txt".

(** [self.token = v] and [self.token_expiry = t] *)
Definition assign_token (v : value) : M unit :=
  modify (λ s, set_auth (mkAuth (auth_url (auth s)) (client_id (auth s))
                           (client_secret (auth s)) v (token_expiry (auth s))) s).
Definition assign_token_expiry (t : Z) : M unit :=
  modify (λ s, set_auth (mkAuth (auth_url (auth s)) (client_id (auth s))
                           (client_secret (auth s)) (token (auth s)) (Some t)) s).

(** [os.makedirs(d, exist_ok=True)], [os.chmod(d, mode)] and writing a
    text file anew; the file system is taken to allow them. *)
Definition makedirs_exist_ok (d : string) : M unit :=
  modify (λ s, match dir_modes s !! d with
               | Some _ => s
               | None => set_dir_modes (<[d := fresh_dir_mode]> (dir_modes s)) s
               end).
Definition chmod (d : string) (mode : Z) : M unit :=
  modify (λ s, set_dir_modes (<[d := mode]> (dir_modes s)) s).
Definition write_text (path text : string) : M unit :=
  modify (λ s, set_text_files (<[path := text]> (text_files s)) s).

Definition refresh_token : M unit :=
  s ← get_env;
  response ← requests_post (token_request (auth s));
  _ ← raise_for_status response;
  token_data ← lift (json response);
  access_token ← lift (subscript token_data "access_token");
  _ ← assign_token access_token;
  now ← datetime_now;
  expires_in ← lift (subscript token_data "expires_in");
  seconds ← lift (py_sub expires_in 300);
  delta ← lift (timedelta_seconds seconds);
  expiry ← lift (datetime_add now delta);
  _ ← assign_token_expiry expiry;
  _ ← makedirs_exist_ok datatrails_dir;
  _ ← chmod datatrails_dir 448;
  s ← get_env;
  write_text token_file ("Authorization: Bearer " +:+ str_of (token (auth s))).

Definition get_token : M value :=
  s ← get_env;
  stale ←
    (if is_None (token (auth s)) then mret true
     else
       now ← datetime_now;
       match token_expiry (auth s) with
       | None => raise TypeError
       | Some expiry => mret (Z.leb expiry now)
       end);
  _ ← (if stale : bool then refresh_token else mret tt);
  s ← get_env;
  mret (token (auth s)).

(** ** [create_asset] and [create_event] *)

(** The headers that both calls send. *)
Definition bearer_headers (bearer : value) : list (string * string) :=
  [("Authorization", "Bearer " +:+ str_of bearer);
   ("Content-Type", "application/json")].

Definition asset_request (api_url bearer : value)
    (merged : sdict) (behaviours : value) : request :=
  mkRequest (JStr (str_of api_url +:+ "/assets")) (bearer_headers bearer)
    (JsonBody (JDict [("behaviours", behaviours);
                      ("attributes", JDict merged);
                      ("public", JBool false)])).

Definition create_asset (api_url attributes behaviours : value) : M value :=
  bearer ← get_token;
  merged ← lift (with_defaults "arc_display_type" (JStr "Publish") attributes);
  response ← requests_post (asset_request api_url bearer merged behaviours);
  _ ← raise_for_status response;
  lift (json response).

Definition event_request (api_url asset_id bearer : value)
    (merged : sdict) : request :=
  mkRequest (JStr (str_of api_url +:+ str_of asset_id +:+ "/events"))
    (bearer_headers bearer)
    (JsonBody (JDict [("operation", JStr "Record");
                      ("behaviour", JStr "RecordEvidence");
                      ("event_attributes", JDict merged)])).

Definition create_event (api_url asset_id event_attributes : value) : M value :=
  bearer ← get_token;
  merged ← lift (with_defaults "arc_display_type" (JStr "vCon") event_attributes);
  response ← requests_post (event_request api_url asset_id bearer merged);
  _ ← raise_for_status response;
  lift (json response).

(** ** [run] *)

Definition default_options : sdict := [
  ("api_url", JStr "https://app.datatrails.ai/archivist/v2/");
  ("auth_url", JStr "https://app.datatrails.ai/archivist/iam/v1/appidp/token");
  ("client_id", JStr "<DATATRAILS_CLIENT_ID>");
  ("client_secret", JStr "<DATATRAILS_CLIENT_SECRET>");
  ("behaviours", JList [JStr "RecordEvidence"]);
  ("asset_attributes", JDict [("arc_description", JStr "DataTrails Conserver Link")]);
  ("event_attributes", JDict [("arc_description", JStr "DataTrails Conserver Link");
                              ("document_hash_alg", JStr "SHA-256")]);
  ("event_type", JStr "Update")
].

Definition HTTP_404_NOT_FOUND : Z := 404.

(** [merged_opts = default_options.copy(); merged_opts.update(opts)] *)
Definition merge_options (opts : sdict) : sdict :=
  sdict_update default_options opts.

(** [opts] is [None] when the argument is left out. *)
Definition run (vcon_uuid link_name : string) (opts : option sdict) : M string :=
  let opts := default default_options opts in
  _ ← logger_info ("Starting DataTrails link for vCon: " +:+ vcon_uuid);
  let merged_opts := merge_options opts in
  let opts := JDict merged_opts in
  client_id ← lift (subscript opts "client_id");
  missing ←
    (if negb (truthy client_id) then mret true
     else client_secret ← lift (subscript opts "client_secret");
          mret (negb (truthy client_secret)));
  if missing : bool then
    raise (ValueError "DataTrails client ID and client secret must be provided")
  else
    auth_url ← lift (subscript opts "auth_url");
    client_id ← lift (subscript opts "client_id");
    client_secret ← lift (subscript opts "client_secret");
    _ ← DataTrailsAuth_init auth_url client_id client_secret;
    s ← get_env;
    found ← lift (get_vcon (redis s) vcon_uuid);
    match found with
    | None =>
        _ ← logger_info ("vCon not found: " +:+ vcon_uuid);
        raise (HTTPException HTTP_404_NOT_FOUND ("vCon not found: " +:+ vcon_uuid))
    | Some v =>
        let asset_id := get_tag v "datatrails_asset_id" in
        let asset_name := py_or (vcon_subject v) (JStr ("vcon:" +:+ vcon_uuid)) in
        let original_vcon_hash := vcon_hash v in
        '(asset_id, v) ←
          (if negb (truthy asset_id) then
             _ ← logger_info ("DataTrails Asset not found: " +:+ str_of asset_id);
             configured ← lift (subscript opts "asset_attributes");
             asset_attributes ← lift (copy_update configured [
               ("arc_display_name", asset_name);
               ("document_hash_value", original_vcon_hash);
               ("document_version", py_or (vcon_updated_at v) (vcon_created_at v));
               ("subject", JStr vcon_uuid);
               ("vcon_uuid", JStr vcon_uuid)
             ]);
             _ ← logger_info ("Creating new DataTrails asset for vCon: " +:+ vcon_uuid);
             api_url ← lift (subscript opts "api_url");
             behaviours ← lift (subscript opts "behaviours");
             asset ← create_asset api_url (JDict asset_attributes) behaviours;
             asset_id ← lift (subscript asset "identity");
             let v := add_tag v "datatrails_asset_id" asset_id in
             let v := add_tag v "datatrails_asset_name" asset_name in
             mret (asset_id, v)
           else
             _ ← logger_info ("DataTrails Asset found: " +:+ str_of asset_id);
             mret (asset_id, v));
        configured ← lift (subscript opts "event_attributes");
        event_attributes ← lift (copy_update configured [
          ("document_hash_value", vcon_hash v);
          ("document_original_hash_value", original_vcon_hash);
          ("document_version", py_or (vcon_updated_at v) (vcon_created_at v));
          ("subject", JStr vcon_uuid);
          ("vcon_uuid", JStr vcon_uuid)
        ]);
        api_url ← lift (subscript opts "api_url");
        event ← create_event api_url asset_id (JDict event_attributes);
        event_id ← lift (subscript event "identity");
        _ ← logger_info ("Created DataTrails Event: " +:+ str_of event_id);
        s ← get_env;
        stored ← lift (store_vcon (redis s) v);
        _ ← modify (set_redis stored);
        _ ← logger_info ("Finished DataTrails asset link for vCon: " +:+ vcon_uuid);
        mret vcon_uuid
    end.

(** ** Predicates for stating properties *)

(** A status that [raise_for_status] lets pass. *)
Definition ok_status (r : response) : Prop :=
  ¬ (400 ≤ status_code r < 600)%Z.

(** The computation [m] never changes the part [f] of the environment. *)
Definition keeps {A B} (f : Env → B) (m : M A) : Prop :=
  ∀ s, f (m s).2 = f s.

(** How a run that started with Redis [r] may end: in an exception with
    Redis as it was, or with the uuid returned and the fetched vCon
    stored, tagged with the new asset when it had none. *)
Definition settled (vcon_uuid : string) (r : Redis)
    (out : result string * Env) : Prop :=
  match out.1 with
  | Raise _ => redis out.2 = r
  | Ok returned =>
      returned = vcon_uuid ∧
      ∃ v v',
        get_vcon r vcon_uuid = Ok (Some v) ∧
        (truthy (get_tag v "datatrails_asset_id") = true ∧ v' = v ∨
         truthy (get_tag v "datatrails_asset_id") = false ∧
         ∃ asset_id,
           v' = add_tag (add_tag v "datatrails_asset_id" asset_id)
                  "datatrails_asset_name"
                  (py_or (vcon_subject v) (JStr ("vcon:" +:+ vcon_uuid)))) ∧
        store_vcon r v' = Ok (redis out.2)
  end.

End Link.

(** ** Sample inputs *)

Record sample_vcon : Set := mkSampleVcon {
  sv_uuid : string;
  sv_subject : value;
  sv_tags : sdict;
  sv_created_at : value;
  sv_updated_at : value;
}.

Definition sample_str (v : value) : string :=
  match v with
  | JStr s => s
  | JNone => "None"
  | JBool true => "True"
  | JBool false => "False"
  | _ => "..."
  end.

(** A stand-in for the vCon library: tags are a dictionary, the hash
    names the tags present, Redis is a map from uuid to vCon. *)
Definition sample_externals : Externals := {|
  str_of := sample_str;
  str_of_JStr := λ s, eq_refl;
  expanduser := λ p, "/home/conserver" +:+ String.substring 1 (String.length p) p;
  path_join := λ d f, d +:+ "/" +:+ f;
  fresh_dir_mode := 493%Z;
  Vcon := sample_vcon;
  Redis := gmap string sample_vcon;
  get_vcon := λ r uuid, Ok (r !! uuid);
  store_vcon := λ r v, Ok (<[sv_uuid v := v]> r);
  get_tag := λ v k, default JNone (sdict_get k (sv_tags v));
  add_tag := λ v k x,
    mkSampleVcon (sv_uuid v) (sv_subject v) (sdict_set k x (sv_tags v))
      (sv_created_at v) (sv_updated_at v);
  vcon_subject := sv_subject;
  vcon_hash := λ v, JStr (String.concat "," (sv_tags v).*1);
  vcon_updated_at := sv_updated_at;
  vcon_created_at := sv_created_at;
|}.

(** A server that grants the token ["t0"] for an hour and answers every
    other request with an object whose identity is ["assets/1"]. *)
Definition sample_server (history : list request) (r : request) : result response :=
  match req_body r with
  | FormData _ =>
      Ok (mkResponse 200%Z
            (Ok (JDict [("access_token", JStr "t0"); ("expires_in", JInt 3600%Z)])))
  | JsonBody _ =>
      Ok (mkResponse 201%Z (Ok (JDict [("identity", JStr "assets/1")])))
  end.

(** A server that refuses every request. *)
Definition refusing_server (history : list request) (r : request) : result response :=
  Ok (mkResponse 401%Z (Raise (ExternalError "JSONDecodeError"))).

(** A server whose token answer carries no lifetime. *)
Definition careless_server (history : list request) (r : request) : result response :=
  Ok (mkResponse 200%Z (Ok (JDict [("access_token", JStr "t0")]))).

(** A server that fails on the third request it sees. *)
Definition flaky_server (history : list request) (r : request) : result response :=
  if Nat.eqb (length history) 2
  then Ok (mkResponse 500%Z (Raise (ExternalError "JSONDecodeError")))
  else sample_server history r.

Definition tagged_vcon : sample_vcon :=
  mkSampleVcon "u1" (JStr "call") [("datatrails_asset_id", JStr "assets/7")]
    (JStr "2024-01-01") (JStr "2024-02-02").

Definition fresh_vcon : sample_vcon :=
  mkSampleVcon "u1" JNone [] (JStr "2024-01-01") JNone.

Definition sample_auth : Auth :=
  mkAuth (JStr "https://auth.example/token") (JStr "id") (JStr "secret") JNone None.

Definition sample_env (srv : list request → request → result response)
    (r : gmap string sample_vcon) : Env (ext := sample_externals) :=
  mkEnv (ext := sample_externals) sample_auth [] srv
    (λ n, (63000000000000000 + Z.of_nat n)%Z) 0 ∅ ∅ r [].

(** An object with a token good for an hour, and one with a token long
    expired. *)
Definition valid_token_env : Env (ext := sample_externals) :=
  set_auth (ext := sample_externals)
    (mkAuth (JStr "https://auth.example/token") (JStr "id") (JStr "secret")
       (JStr "t0") (Some 63000003300000000%Z))
    (sample_env refusing_server ∅).

Definition expired_token_env : Env (ext := sample_externals) :=
  set_auth (ext := sample_externals)
    (mkAuth (JStr "https://auth.example/token") (JStr "id") (JStr "secret")
       (JStr "t0") (Some 0%Z))
    (sample_env sample_server ∅).

End DataTrails.

(** * Properties *)

(** ** Dictionaries and slices *)

Lemma key_eqb_eq j k : key_eqb j k = true ↔ j = k.
Proof.
  destruct j as [x|s|a], k as [y|t|b]; simpl; try (split; [discriminate | congruence]).
  - rewrite Z.eqb_eq. split; congruence.
  - rewrite String.eqb_eq. split; congruence.
  - split; [destruct a, b; simpl; congruence || discriminate |].
    intros [= ->]. by destruct b.
Qed.

Lemma key_eqb_refl k : key_eqb k k = true.
Proof. by apply key_eqb_eq. Qed.

Lemma dict_get_set_eq k v d : dict_get k (dict_set k v d) = Some v.
Proof.
  induction d as [|[j u] d IH]; simpl.
  - by rewrite key_eqb_refl.
  - destruct (key_eqb j k) eqn:E; simpl; by rewrite E.
Qed.

Lemma dict_get_set_ne j k v d :
  j ≠ k → dict_get k (dict_set j v d) = dict_get k d.
Proof.
  intros Hne. induction d as [|[i u] d IH]; simpl.
  - destruct (key_eqb j k) eqn:E; [by apply key_eqb_eq in E | done].
  - destruct (key_eqb i j) eqn:Eij; simpl.
    + apply key_eqb_eq in Eij as ->.
      destruct (key_eqb j k) eqn:E; [by apply key_eqb_eq in E | done].
    + by rewrite IH.
Qed.

Lemma slice_length_le {A} lo hi (b : list A) : length (slice lo hi b) ≤ hi - lo.
Proof. unfold slice. rewrite length_take. lia. Qed.

Lemma slice_length {A} lo hi (b : list A) :
  length (slice lo hi b) = (hi - lo) `min` (length b - lo).
Proof. unfold slice. by rewrite length_take, length_drop. Qed.

(** ** The monad *)

Lemma bind_Ok {A B} (m : M A) (f : A → M B) w a w' :
  m w = (Ok a, w') → (m ≫= f) w = f a w'.
Proof. unfold mbind, M_bind. by intros ->. Qed.

Lemma bind_Raise {A B} (m : M A) (f : A → M B) w e w' :
  m w = (Raise e, w') → (m ≫= f) w = (Raise e, w').
Proof. unfold mbind, M_bind. by intros ->. Qed.

Lemma bind_inv_Ok {A B} (m : M A) (f : A → M B) w b w' :
  (m ≫= f) w = (Ok b, w') → ∃ a w0, m w = (Ok a, w0) ∧ f a w0 = (Ok b, w').
Proof.
  unfold mbind, M_bind. destruct (m w) as [[a|e] w0]; [eauto | discriminate].
Qed.

Lemma bind_cases {A B} (m : M A) (f : A → M B) w r w' :
  (m ≫= f) w = (r, w') →
  (∃ e, m w = (Raise e, w') ∧ r = Raise e) ∨
  (∃ a w0, m w = (Ok a, w0) ∧ f a w0 = (r, w')).
Proof.
  unfold mbind, M_bind. destruct (m w) as [[a|e] w0].
  - intros Hf. right. eauto.
  - intros [= <- <-]. left. eauto.
Qed.

(** ** The [match] on the hash algorithm *)

Lemma match_payload_hash_alg_Some v label :
  match_payload_hash_alg v = Some label ↔
    (v = VStr "SHA-256" ∧ label = (-16)%Z) ∨
    (v = VStr "SHA-384" ∧ label = (-43)%Z) ∨
    (v = VStr "SHA-512" ∧ label = (-44)%Z).
Proof.
  split.
  - destruct v as [| |s| | | |]; simpl; try discriminate.
    destruct (String.eqb s "SHA-256") eqn:E1;
      [apply String.eqb_eq in E1 as ->; intros [= <-]; auto |].
    destruct (String.eqb s "SHA-384") eqn:E2;
      [apply String.eqb_eq in E2 as ->; intros [= <-]; auto |].
    destruct (String.eqb s "SHA-512") eqn:E3;
      [apply String.eqb_eq in E3 as ->; intros [= <-]; auto 6 | discriminate].
  - by intros [[-> ->]|[[-> ->]|[-> ->]]].
Qed.

Lemma match_payload_hash_alg_None v :
  match_payload_hash_alg v = None ↔
    v ∉ [VStr "SHA-256"; VStr "SHA-384"; VStr "SHA-512"].
Proof.
  rewrite !not_elem_of_cons. split.
  - intros Hnone. repeat split; try (intros ->; discriminate). apply not_elem_of_nil.
  - intros (H1 & H2 & H3 & _).
    destruct (match_payload_hash_alg v) as [label|] eqn:E; [|done].
    apply match_payload_hash_alg_Some in E.
    by destruct E as [[? _]|[[? _]|[? _]]].
Qed.

(** ** Building the protected header *)

Lemma build_protected_header_bound a vk label w :
  verifying_key (arg_signing_key a) = Some vk →
  match_payload_hash_alg (payload_hash_alg_of a) = Some label →
  build_protected_header a w =
    (Ok (mkLocals (slice 0 32 (vk_to_string vk)) (slice 32 64 (vk_to_string vk))
           (header_display a (slice 0 32 (vk_to_string vk))
              (slice 32 64 (vk_to_string vk)) label)), w).
Proof.
  intros Hvk Hlabel. unfold build_protected_header. rewrite Hvk, Hlabel.
  reflexivity.
Qed.

Lemma build_protected_header_unbound a vk w :
  verifying_key (arg_signing_key a) = Some vk →
  match_payload_hash_alg (payload_hash_alg_of a) = None →
  build_protected_header a w =
    (Raise (UnboundLocalError "payload_hash_alg_label"), w).
Proof.
  intros Hvk Hlabel. unfold build_protected_header. rewrite Hvk, Hlabel.
  reflexivity.
Qed.

Lemma build_protected_header_no_key a w :
  verifying_key (arg_signing_key a) = None →
  build_protected_header a w = (Raise AssertionError, w).
Proof. intros Hvk. unfold build_protected_header. by rewrite Hvk. Qed.

Lemma build_protected_header_outcome a w :
  header_outcome a (build_protected_header a w).1 ∧
  (build_protected_header a w).2 = w.
Proof.
  destruct (verifying_key (arg_signing_key a)) as [vk|] eqn:Hvk.
  - destruct (match_payload_hash_alg (payload_hash_alg_of a)) as [label|] eqn:Hl.
    + rewrite (build_protected_header_bound a vk label w Hvk Hl).
      split; [by eapply outcome_built | done].
    + rewrite (build_protected_header_unbound a vk w Hvk Hl).
      split; [by eapply outcome_unbound | done].
  - rewrite (build_protected_header_no_key a w Hvk).
    split; [by apply outcome_no_key | done].
Qed.

Lemma build_protected_header_inv a w l w' :
  build_protected_header a w = (Ok l, w') →
  w' = w ∧ ∃ vk label,
    verifying_key (arg_signing_key a) = Some vk ∧
    match_payload_hash_alg (payload_hash_alg_of a) = Some label ∧
    x_part l = slice 0 32 (vk_to_string vk) ∧
    y_part l = slice 32 64 (vk_to_string vk) ∧
    protected_header l = header_display a (x_part l) (y_part l) label.
Proof.
  intros Hrun. destruct (build_protected_header_outcome a w) as [Hout Hw].
  rewrite Hrun in Hout, Hw. simpl in *. split; [done|].
  inversion Hout; subst. eauto 10.
Qed.

(** The header display has no label twice, whatever its values are. *)
Lemma header_display_labels a x y label :
  py_keys (header_display a x y label) =
    [KAttr Algorithm; KAttr KID; KInt (-6802); KInt 13;
     KInt (-6800); KInt (-6801); KInt (-6804)] ∧
  NoDup (py_keys (header_display a x y label)).
Proof.
  split; [done|]. simpl.
  repeat (apply NoDup_cons; split;
          [rewrite ?not_elem_of_cons; repeat split; (discriminate || apply not_elem_of_nil)|]).
  apply NoDup_nil_2.
Qed.

Lemma build_protected_header_unsupported a vk w :
  verifying_key (arg_signing_key a) = Some vk →
  payload_hash_alg_of a ∉ [VStr "SHA-256"; VStr "SHA-384"; VStr "SHA-512"] →
  build_protected_header a w =
    (Raise (UnboundLocalError "payload_hash_alg_label"), w).
Proof.
  intros Hvk Hout. apply build_protected_header_unbound with vk; [done|].
  by apply match_payload_hash_alg_None.
Qed.

(** C1. For an algorithm outside the three matched strings the function
    does stop, but with no check of its own: at ["SHA-512/256"], for which
    the module even defines a label, no case of the [match] binds
    [payload_hash_alg_label], and the call ends in the [UnboundLocalError]
    raised when the header display reads that local, whatever the COSE
    library and the world are. *)
Theorem sha512_256_ends_in_unbound_local (cose : PyCose) (w : World) :
  create_hashed_signed_statement
    (sample_args p256_signing_key (Some (VStr "SHA-512/256"))) w
  = (Raise (UnboundLocalError "payload_hash_alg_label"), w).
Proof.
  unfold create_hashed_signed_statement, build_statement.
  erewrite bind_Raise; [done|].
  erewrite bind_Raise; [done|].
  eapply build_protected_header_unsupported; [done|].
  rewrite !not_elem_of_cons. repeat split; try discriminate. apply not_elem_of_nil.
Qed.

(** C2. For each of the strings ["SHA-256"], ["SHA-384"] and ["SHA-512"]
    the header is built and the value stored under label -6800 is the code
    of that algorithm: -16, -43 and -44. *)
Theorem hash_alg_label_is_fixed_code (a : call_args) vk w (s : string) (code : Z) :
  verifying_key (arg_signing_key a) = Some vk →
  payload_hash_alg_of a = VStr s →
  (s, code) ∈ [("SHA-256", (-16)%Z); ("SHA-384", (-43)%Z); ("SHA-512", (-44)%Z)] →
  ∃ l, build_protected_header a w = (Ok l, w) ∧
       py_getitem (protected_header l) (KInt (-6800)) = Some (VInt code).
Proof.
  intros Hvk Halg Hin.
  assert (match_payload_hash_alg (payload_hash_alg_of a) = Some code) as Hlabel.
  { rewrite Halg. apply match_payload_hash_alg_Some.
    rewrite !elem_of_cons, elem_of_nil in Hin.
    destruct Hin as [[= -> ->]|[[= -> ->]|[[= -> ->]|[]]]]; auto. }
  eexists. split; [by apply build_protected_header_bound|]. reflexivity.
Qed.

Lemma hash_alg_label_is_fixed_code_witness :
  ∃ l, build_protected_header
         (sample_args p256_signing_key (Some (VStr "SHA-384"))) empty_world
       = (Ok l, empty_world) ∧
       py_getitem (protected_header l) (KInt (-6800)) = Some (VInt (-43)).
Proof.
  apply (hash_alg_label_is_fixed_code
           (sample_args p256_signing_key (Some (VStr "SHA-384")))
           (mkVerifyingKey (replicate 32 x11 ++ replicate 32 x77))
           empty_world "SHA-384" (-43)%Z).
  - reflexivity.
  - reflexivity.
  - repeat constructor.
Defined.

(** C3. Whenever the protected header is built, it holds under label 13
    the CWT claims: the issuer under 1, the subject under 2, and under 8 a
    confirmation claim whose only entry, under 1, is the COSE key with key
    type EC2, curve P-256 and the two slices of the serialised verifying
    key as x and y. *)
Theorem cwt_claims_in_header (a : call_args) w l w' :
  build_protected_header a w = (Ok l, w') →
  ∃ vk, verifying_key (arg_signing_key a) = Some vk ∧
    py_path (protected_header l) [KInt 13; KInt 1] = Some (arg_issuer a) ∧
    py_path (protected_header l) [KInt 13; KInt 2] = Some (arg_subject a) ∧
    py_path (protected_header l) [KInt 13; KInt 8] =
      Some (VDict [(KInt 1, VDict [
        (KAttr KpKty, VConst KtyEC2);
        (KAttr EC2KpCurve, VConst P256);
        (KAttr EC2KpX, VBytes (slice 0 32 (vk_to_string vk)));
        (KAttr EC2KpY, VBytes (slice 32 64 (vk_to_string vk)))])]).
Proof.
  intros Hrun.
  destruct (build_protected_header_inv a w l w' Hrun)
    as (_ & vk & label & Hvk & _ & Hx & Hy & Hhdr).
  exists vk. rewrite Hhdr, Hx, Hy. by repeat split.
Qed.

Lemma cwt_claims_in_header_witness :
  ∃ vk, verifying_key p256_signing_key = Some vk ∧
    py_path (header_display (sample_args p256_signing_key None)
               (replicate 32 x11) (replicate 32 x77) (-16))
      [KInt 13; KInt 1] = Some (VStr "issuer") ∧
    py_path (header_display (sample_args p256_signing_key None)
               (replicate 32 x11) (replicate 32 x77) (-16))
      [KInt 13; KInt 2] = Some (VStr "subject") ∧
    py_path (header_display (sample_args p256_signing_key None)
               (replicate 32 x11) (replicate 32 x77) (-16))
      [KInt 13; KInt 8] =
      Some (VDict [(KInt 1, VDict [
        (KAttr KpKty, VConst KtyEC2);
        (KAttr EC2KpCurve, VConst P256);
        (KAttr EC2KpX, VBytes (slice 0 32 (vk_to_string vk)));
        (KAttr EC2KpY, VBytes (slice 32 64 (vk_to_string vk)))])]).
Proof.
  apply (cwt_claims_in_header (sample_args p256_signing_key None) empty_world
           (mkLocals (replicate 32 x11) (replicate 32 x77)
              (header_display (sample_args p256_signing_key None)
                 (replicate 32 x11) (replicate 32 x77) (-16)))
           empty_world).
  reflexivity.
Defined.




(** C7. With [payload_hash_alg] left out the parameter is ["SHA-256"],
    the header is built for any key that has a verifying key, and the
    value under label -6800 is -16. *)
Theorem default_alg_is_sha256 (a : call_args) vk w :
  arg_payload_hash_alg a = None →
  verifying_key (arg_signing_key a) = Some vk →
  payload_hash_alg_of a = VStr "SHA-256" ∧
  ∃ l, build_protected_header a w = (Ok l, w) ∧
       py_getitem (protected_header l) (KInt (-6800)) = Some (VInt (-16)).
Proof.
  intros Hdef Hvk.
  assert (payload_hash_alg_of a = VStr "SHA-256") as Halg.
  { unfold payload_hash_alg_of. by rewrite Hdef. }
  split; [done|].
  eexists. split.
  - apply build_protected_header_bound; [done|]. by rewrite Halg.
  - reflexivity.
Qed.

Lemma default_alg_is_sha256_witness :
  payload_hash_alg_of (sample_args p256_signing_key None) = VStr "SHA-256" ∧
  ∃ l, build_protected_header (sample_args p256_signing_key None) empty_world
         = (Ok l, empty_world) ∧
       py_getitem (protected_header l) (KInt (-6800)) = Some (VInt (-16)).
Proof.
  apply (default_alg_is_sha256 (sample_args p256_signing_key None)
           (mkVerifyingKey (replicate 32 x11 ++ replicate 32 x77)) empty_world).
  - reflexivity.
  - reflexivity.
Defined.


(** C10. Whenever the protected header is built, each of the labels
    -6801, -6802 and -6804 is present in it, and the label of an argument
    that was left out is mapped to [None]. *)
Theorem omitted_optionals_are_null (a : call_args) w l w' :
  build_protected_header a w = (Ok l, w') →
  (arg_payload_location a = None →
     py_getitem (protected_header l) (KInt (-6801)) = Some VNone) ∧
  (arg_pre_image_content_type a = None →
     py_getitem (protected_header l) (KInt (-6802)) = Some VNone) ∧
  (arg_meta_map a = None →
     py_getitem (protected_header l) (KInt (-6804)) = Some VNone) ∧
  KInt (-6801) ∈ py_keys (protected_header l) ∧
  KInt (-6802) ∈ py_keys (protected_header l) ∧
  KInt (-6804) ∈ py_keys (protected_header l).
Proof.
  intros Hrun.
  destruct (build_protected_header_inv a w l w' Hrun)
    as (_ & vk & label & _ & _ & _ & _ & ->).
  repeat split.
  - intros Hnone. simpl. unfold payload_location_of. by rewrite Hnone.
  - intros Hnone. simpl. unfold pre_image_content_type_of. by rewrite Hnone.
  - intros Hnone. simpl. unfold meta_map_of. by rewrite Hnone.
  - simpl. repeat constructor.
  - simpl. repeat constructor.
  - simpl. repeat constructor.
Qed.

Lemma omitted_optionals_are_null_witness :
  (arg_payload_location (sample_args p256_signing_key None) = None →
     py_getitem (header_display (sample_args p256_signing_key None)
                   (replicate 32 x11) (replicate 32 x77) (-16))
       (KInt (-6801)) = Some VNone) ∧
  py_getitem (header_display (sample_args p256_signing_key None)
                (replicate 32 x11) (replicate 32 x77) (-16))
    (KInt (-6802)) = Some VNone ∧
  py_getitem (header_display (sample_args p256_signing_key None)
                (replicate 32 x11) (replicate 32 x77) (-16))
    (KInt (-6804)) = Some VNone.
Proof.
  destruct (omitted_optionals_are_null (sample_args p256_signing_key None)
              empty_world
              (mkLocals (replicate 32 x11) (replicate 32 x77)
                 (header_display (sample_args p256_signing_key None)
                    (replicate 32 x11) (replicate 32 x77) (-16)))
              empty_world) as (Hloc & Htype & Hmeta & _).
  - reflexivity.
  - split; [exact Hloc|]. split; [apply Htype | apply Hmeta]; reflexivity.
Defined.

(** ** The statement handed to the library *)

Section CreateFacts.
Context `{cose : PyCose}.

Lemma build_statement_inv a w st w' :
  build_statement a w = (Ok st, w') →
  w' = w ∧ ∃ l cose_key,
    build_protected_header a w = (Ok l, w) ∧
    CoseKey_from_dict
      (signing_cose_key (arg_signing_key a) (x_part l) (y_part l)) = Ok cose_key ∧
    st = mkSign1Message (protected_header l) (payload_of a) (Some cose_key).
Proof.
  unfold build_statement. intros Hrun.
  apply bind_inv_Ok in Hrun as (l & w0 & Hl & Hrun).
  apply bind_inv_Ok in Hrun as (ck & w1 & Hck & Hrun).
  unfold lift in Hck. injection Hck as Hck <-.
  injection Hrun as <- <-.
  destruct (build_protected_header_inv a w l w0 Hl) as [-> _].
  split; [done|]. by exists l, ck.
Qed.

Lemma build_statement_keeps_world a w :
  (build_statement a w).2 = w.
Proof.
  unfold build_statement, mbind, M_bind, lift.
  pose proof (build_protected_header_outcome a w) as [_ Hw].
  destruct (build_protected_header a w) as [[l|e] w0]; simpl in *; subst; [|done].
  by destruct (CoseKey_from_dict _).
Qed.

Lemma create_keeps_files a w :
  files (create_hashed_signed_statement a w).2 = files w.
Proof.
  unfold create_hashed_signed_statement.
  pose proof (build_statement_keeps_world a w) as Hw.
  unfold mbind at 1. unfold M_bind.
  destruct (build_statement a w) as [[st|e] w0]; simpl in *; subst; [|done].
  unfold mbind, M_bind, encode.
  by destruct (Sign1Message_encode st (rng w)) as [[ss|e] n].
Qed.


(** C9. The function hashes nothing: the statement that reaches the
    library's encoder carries the [payload] argument as it was passed,
    and the bytes returned are the encoder's for that statement. *)
Theorem payload_is_passed_verbatim (a : call_args) (p : pyval) w st w' :
  arg_payload a = Some p →
  build_statement a w = (Ok st, w') →
  payload st = p ∧
  create_hashed_signed_statement a w = encode st w'.
Proof.
  intros Hp Hrun. split.
  - destruct (build_statement_inv a w st w' Hrun) as (_ & l & ck & _ & _ & ->).
    simpl. unfold payload_of. by rewrite Hp.
  - unfold create_hashed_signed_statement.
    rewrite (bind_Ok _ _ _ _ _ Hrun).
    unfold mbind, M_bind. by destruct (encode st w') as [[ss|e] w1].
Qed.
End CreateFacts.

(** ** The driver *)

Lemma print_keeps_files line w r w' :
  print line w = (r, w') → r = Ok tt ∧ files w' = files w.
Proof. by intros [= <- <-]. Qed.

Section MainFacts.
Context `{cose : PyCose} `{platform : Platform}.

Lemma read_text_keeps_world path w : (read_text path w).2 = w.
Proof.
  unfold read_text, mbind, M_bind, get_world. simpl.
  destruct (files w !! path) as [raw|]; [|done].
  by destruct (utf8_decode raw).
Qed.

Lemma read_text_run path w r w' : read_text path w = (r, w') → w' = w.
Proof. intros Hrun. pose proof (read_text_keeps_world path w) as Hw. by rewrite Hrun in Hw. Qed.

Lemma open_signing_key_run path w r w' :
  open_signing_key path w = (r, w') → w' = w.
Proof.
  unfold open_signing_key. intros Hrun.
  apply bind_cases in Hrun as [(e & Hrun & _)|(pem & w0 & Hpem & Hrun)].
  - by apply read_text_run in Hrun.
  - apply read_text_run in Hpem as ->.
    apply bind_cases in Hrun as [(e & Hrun & _)|(sk & w0 & Hsk & Hrun)].
    + by injection Hrun as _ <-.
    + injection Hsk as _ <-. by injection Hrun as _ <-.
Qed.

Lemma write_binary_spec path data w :
  write_binary path data w = (Ok tt, set_files (λ fs, <[path := data]> fs) w).
Proof.
  unfold write_binary, open_wb, handle_write, modify_world, mbind, M_bind, set_files.
  simpl. rewrite lookup_insert_eq. simpl. by rewrite insert_insert_eq.
Qed.

Lemma main_run f w r w' :
  main f w = (r, w') →
  (∃ e, r = Raise e ∧ files w' = files w) ∨
  (r = Ok tt ∧
   ∃ meta_map_dict signing_key payload_contents w0 w1 signed_statement,
      create_hashed_signed_statement
        (main_call (parse_args f) signing_key
           (sha256_digest (utf8_encode payload_contents)) meta_map_dict) w0
        = (Ok signed_statement, w1) ∧
      files w0 = files w ∧
      files w' = <[output_file (parse_args f) := signed_statement]> (files w)).
Proof.
  unfold main. intros Hrun.
  apply bind_cases in Hrun as [(e & Hrun & ->)|(meta & w1 & Hmeta & Hrun)].
  { left. exists e. split; [done|].
    destruct (meta_map_file (parse_args f)) as [path|]; [|done].
    apply bind_cases in Hrun as [(e' & Hrun & _)|(text & w0 & Htext & Hrun)].
    - by apply read_text_run in Hrun as ->.
    - apply read_text_run in Htext as ->. by injection Hrun as _ <-. }
  assert (files w1 = files w) as Hw1.
  { destruct (meta_map_file (parse_args f)) as [path|]; [|by injection Hmeta as _ <-].
    apply bind_cases in Hmeta as [(e' & _ & [=])|(text & w0 & Htext & Hmeta)].
    apply read_text_run in Htext as ->. by injection Hmeta as _ <-. }
  apply bind_cases in Hrun as [(e & Hrun & ->)|([] & w2 & Hprint & Hrun)];
    [by apply print_keeps_files in Hrun as [[=] _]|].
  apply print_keeps_files in Hprint as [_ Hw2].
  apply bind_cases in Hrun as [(e & Hrun & ->)|(sk & w3 & Hsk & Hrun)].
  { left. exists e. split; [done|]. apply open_signing_key_run in Hrun as ->. congruence. }
  apply open_signing_key_run in Hsk as ->.
  apply bind_cases in Hrun as [(e & Hrun & ->)|(contents & w4 & Hcontents & Hrun)].
  { left. exists e. split; [done|]. apply read_text_run in Hrun as ->. congruence. }
  apply read_text_run in Hcontents as ->.
  apply bind_cases in Hrun as [(e & Hrun & ->)|(ss & w5 & Hcreate & Hrun)].
  { left. exists e. split; [done|].
    pose proof (create_keeps_files
      (main_call (parse_args f) sk (sha256_digest (utf8_encode contents)) meta) w2) as Hk.
    rewrite Hrun in Hk. simpl in Hk. congruence. }
  right. rewrite write_binary_spec in Hrun. injection Hrun as <- <-.
  split; [done|]. exists meta, sk, contents, w2, w5, ss.
  split; [done|]. split; [congruence|].
  pose proof (create_keeps_files
    (main_call (parse_args f) sk (sha256_digest (utf8_encode contents)) meta) w2) as Hk.
  rewrite Hcreate in Hk. simpl in *. congruence.
Qed.

(** C5. The output file is written only once the signed statement has
    been returned: when [main] ends in an exception, wherever it was
    raised, the files are those it started with; when it ends normally,
    [create_hashed_signed_statement] has returned the signed statement
    and the files differ only in the output file, which holds exactly
    those bytes. *)
Theorem output_written_only_after_statement (f : argv) (w : World) :
  match (main f w).1 with
  | Raise _ => files (main f w).2 = files w
  | Ok _ => ∃ meta_map_dict signing_key payload_contents w0 w1 signed_statement,
      create_hashed_signed_statement
        (main_call (parse_args f) signing_key
           (sha256_digest (utf8_encode payload_contents)) meta_map_dict) w0
        = (Ok signed_statement, w1) ∧
      files w0 = files w ∧
      files (main f w).2
        = <[output_file (parse_args f) := signed_statement]> (files w)
  end.
Proof.
  destruct (main f w) as [r w'] eqn:Hrun. simpl.
  apply main_run in Hrun as [(e & -> & Hfiles)|(-> & Hok)]; done.
Qed.
End MainFacts.

(** ** Runs on the sample inputs *)


Lemma payload_is_passed_verbatim_witness :
  payload (mkSign1Message
             (header_display (sample_args p256_signing_key None)
                (replicate 32 x11) (replicate 32 x77) (-16))
             (VBytes (String.list_byte_of_string "digest"))
             (Some (mkCoseKey (signing_cose_key p256_signing_key
                                 (replicate 32 x11) (replicate 32 x77)))))
    = VBytes (String.list_byte_of_string "digest") ∧
  create_hashed_signed_statement (cose := sample_cose)
    (sample_args p256_signing_key None) empty_world
  = encode (cose := sample_cose)
      (mkSign1Message
         (header_display (sample_args p256_signing_key None)
            (replicate 32 x11) (replicate 32 x77) (-16))
         (VBytes (String.list_byte_of_string "digest"))
         (Some (mkCoseKey (signing_cose_key p256_signing_key
                             (replicate 32 x11) (replicate 32 x77)))))
      empty_world.
Proof.
  apply (payload_is_passed_verbatim (cose := sample_cose)
           (sample_args p256_signing_key None)
           (VBytes (String.list_byte_of_string "digest")) empty_world _ empty_world).
  - reflexivity.
  - reflexivity.
Defined.

(** With no flags, the payload and the key in place and a library that
    signs, the statement lands in the default output file. *)
Example main_stores_statement :
  (main (cose := sample_cose) (platform := sample_platform) no_flags sample_world).1
    = Ok tt ∧
  files (main (cose := sample_cose) (platform := sample_platform)
           no_flags sample_world).2 !! "signed-statement.cbor"
    = Some (String.list_byte_of_string "hello" ++ replicate 27 x00).
Proof. split; vm_compute; reflexivity. Qed.

(** When the library fails while signing, [main] ends in that exception
    and no output file appears. *)
Example main_signing_failure_leaves_no_file :
  (main (cose := refusing_cose) (platform := sample_platform) no_flags sample_world).1
    = Raise (LibraryError "sign") ∧
  files (main (cose := refusing_cose) (platform := sample_platform)
           no_flags sample_world).2 !! "signed-statement.cbor" = None.
Proof. split; vm_compute; reflexivity. Qed.

(** The driver passes the SHA-256 digest of the payload file as the
    payload, with the algorithm fixed to ["SHA-256"]. *)
Lemma main_call_payload args signing_key payload_hash meta_map_dict :
  arg_payload (main_call args signing_key payload_hash meta_map_dict)
    = Some (VBytes payload_hash) ∧
  arg_payload_hash_alg (main_call args signing_key payload_hash meta_map_dict)
    = Some (VStr "SHA-256").
Proof. done. Qed.

(** * Further properties of the statement and of the driver *)

Lemma files_printed meta w : files (printed meta w) = files w.
Proof. done. Qed.

Section CreateMore.
Context `{cose : PyCose}.

Lemma create_outcome a w :
  create_hashed_signed_statement a w =
    match (build_protected_header a w).1 with
    | Raise e => (Raise e, w)
    | Ok l =>
        match CoseKey_from_dict
                (signing_cose_key (arg_signing_key a) (x_part l) (y_part l)) with
        | Raise e => (Raise e, w)
        | Ok cose_key =>
            let '(r, n) :=
              Sign1Message_encode
                (mkSign1Message (protected_header l) (payload_of a) (Some cose_key))
                (rng w) in
            (r, set_rng n w)
        end
    end.
Proof.
  unfold create_hashed_signed_statement, build_statement, mbind, M_bind.
  pose proof (build_protected_header_outcome a w) as [_ Hw].
  destruct (build_protected_header a w) as [[l|e] w0]; simpl in *; subst; [|done].
  unfold lift. destruct (CoseKey_from_dict _) as [ck|e]; [|done].
  unfold mret, M_ret, encode. simpl.
  by destruct (Sign1Message_encode _ (rng w)) as [[ss|e] n].
Qed.

Lemma create_steps_rng_only a w :
  ∃ n, (create_hashed_signed_statement a w).2 = set_rng n w.
Proof.
  rewrite create_outcome.
  destruct (build_protected_header a w).1 as [l|e];
    [|exists (rng w); by destruct w].
  destruct (CoseKey_from_dict _) as [ck|e]; [|exists (rng w); by destruct w].
  destruct (Sign1Message_encode _ (rng w)) as [r n]. by exists n.
Qed.

Lemma build_protected_header_frame a w1 w2 :
  (build_protected_header a w1).1 = (build_protected_header a w2).1.
Proof.
  destruct (verifying_key (arg_signing_key a)) as [vk|] eqn:Hvk.
  - destruct (match_payload_hash_alg (payload_hash_alg_of a)) as [label|] eqn:Hl.
    + by rewrite !(build_protected_header_bound a vk label _ Hvk Hl).
    + by rewrite !(build_protected_header_unbound a vk _ Hvk Hl).
  - by rewrite !(build_protected_header_no_key a _ Hvk).
Qed.

Lemma create_frame a w1 w2 :
  rng w1 = rng w2 →
  (create_hashed_signed_statement a w1).1 = (create_hashed_signed_statement a w2).1 ∧
  rng (create_hashed_signed_statement a w1).2
    = rng (create_hashed_signed_statement a w2).2.
Proof.
  intros Hrng. rewrite !create_outcome.
  rewrite (build_protected_header_frame a w1 w2), Hrng.
  destruct (build_protected_header a w2).1 as [l|e]; [|done].
  destruct (CoseKey_from_dict _) as [ck|e]; [|done].
  by destruct (Sign1Message_encode _ (rng w2)) as [r n].
Qed.

(** X1. For a key that has a verifying key and any value of
    [payload_hash_alg] other than the three matched strings (another
    string, bytes, [None] passed explicitly), the call ends in the
    [UnboundLocalError] for [payload_hash_alg_label]; the library is never
    reached and the world is as it was. *)
Theorem unsupported_value_ends_in_unbound_local (a : call_args) vk w :
  verifying_key (arg_signing_key a) = Some vk →
  payload_hash_alg_of a ∉ [VStr "SHA-256"; VStr "SHA-384"; VStr "SHA-512"] →
  create_hashed_signed_statement a w
    = (Raise (UnboundLocalError "payload_hash_alg_label"), w).
Proof.
  intros Hvk Halg. rewrite create_outcome.
  by rewrite (build_protected_header_unsupported a vk w Hvk Halg).
Qed.

(** X2. The assertion on the verifying key comes first: a signing key
    without one ends the call in [AssertionError], whatever the other
    arguments are, and the world is as it was. *)
Theorem missing_verifying_key_asserts_first (a : call_args) w :
  verifying_key (arg_signing_key a) = None →
  create_hashed_signed_statement a w = (Raise AssertionError, w).
Proof.
  intros Hvk. rewrite create_outcome.
  by rewrite (build_protected_header_no_key a w Hvk).
Qed.


End CreateMore.

Section MainMore.
Context `{cose : PyCose} `{platform : Platform}.

Lemma read_text_outcome path w :
  read_text path w =
    (match files w !! path with
     | None => Raise (FileNotFoundError path)
     | Some raw =>
         match utf8_decode raw with
         | None => Raise UnicodeDecodeError
         | Some text => Ok text
         end
     end, w).
Proof.
  unfold read_text, mbind, M_bind, get_world.
  destruct (files w !! path) as [raw|]; [|done].
  by destruct (utf8_decode raw).
Qed.

Lemma open_signing_key_outcome path w :
  open_signing_key path w =
    (match files w !! path with
     | None => Raise (FileNotFoundError path)
     | Some raw =>
         match utf8_decode raw with
         | None => Raise UnicodeDecodeError
         | Some pem => SigningKey_from_pem pem
         end
     end, w).
Proof.
  unfold open_signing_key, mbind, M_bind. rewrite read_text_outcome.
  destruct (files w !! path) as [raw|]; [|done].
  destruct (utf8_decode raw) as [pem|]; [|done].
  unfold lift. by destruct (SigningKey_from_pem pem).
Qed.

(** [main] as a function of what it reads. *)
Lemma main_outcome f w :
  main f w =
    match
      match flag_meta_map_file f with
      | None => Ok (VDict [])
      | Some path =>
          match files w !! path with
          | None => Raise (FileNotFoundError path)
          | Some raw =>
              match utf8_decode raw with
              | None => Raise UnicodeDecodeError
              | Some text => json_loads text
              end
          end
      end
    with
    | Raise e => (Raise e, w)
    | Ok meta =>
        match
          match files w !! signing_key_file (parse_args f) with
          | None => Raise (FileNotFoundError (signing_key_file (parse_args f)))
          | Some raw =>
              match utf8_decode raw with
              | None => Raise UnicodeDecodeError
              | Some pem => SigningKey_from_pem pem
              end
          end
        with
        | Raise e => (Raise e, printed meta w)
        | Ok signing_key =>
            match
              match files w !! payload_file (parse_args f) with
              | None => Raise (FileNotFoundError (payload_file (parse_args f)))
              | Some raw =>
                  match utf8_decode raw with
                  | None => Raise UnicodeDecodeError
                  | Some text => Ok text
                  end
              end
            with
            | Raise e => (Raise e, printed meta w)
            | Ok contents =>
                let '(r, w1) :=
                  create_hashed_signed_statement
                    (main_call (parse_args f) signing_key
                       (sha256_digest (utf8_encode contents)) meta)
                    (printed meta w) in
                match r with
                | Ok signed_statement =>
                    (Ok tt,
                     set_files
                       (λ fs, <[output_file (parse_args f) := signed_statement]> fs) w1)
                | Raise e => (Raise e, w1)
                end
            end
        end
    end.
Proof.
  unfold main. unfold mbind at 1. unfold M_bind at 1.
  assert (match meta_map_file (parse_args f) with
          | Some path => read_file path ≫= λ text, lift (json_loads text)
          | None => mret (VDict (dict_literal []))
          end w
          = (match flag_meta_map_file f with
             | None => Ok (VDict [])
             | Some path =>
                 match files w !! path with
                 | None => Raise (FileNotFoundError path)
                 | Some raw =>
                     match utf8_decode raw with
                     | None => Raise UnicodeDecodeError
                     | Some text => json_loads text
                     end
                 end
             end, w)) as ->.
  { simpl. destruct (flag_meta_map_file f) as [path|]; [|done].
    unfold read_file, mbind, M_bind. rewrite read_text_outcome.
    destruct (files w !! path) as [raw|]; [|done].
    by destruct (utf8_decode raw). }
  destruct (match flag_meta_map_file f with None => _ | Some _ => _ end)
    as [meta|e]; [|done].
  unfold mbind at 1. unfold M_bind at 1.
  change (print [VStr "meta_map:"; meta] w) with (Ok tt, printed meta w).
  unfold mbind at 1. unfold M_bind at 1.
  rewrite open_signing_key_outcome, files_printed.
  destruct (match files w !! signing_key_file (parse_args f) with
            None => _ | Some _ => _ end) as [sk|e]; [|done].
  unfold mbind at 1. unfold M_bind at 1. unfold read_file.
  rewrite read_text_outcome, files_printed.
  destruct (match files w !! payload_file (parse_args f) with
            None => _ | Some _ => _ end) as [contents|e]; [|done].
  unfold mbind, M_bind.
  destruct (create_hashed_signed_statement _ _) as [[ss|e] w1]; [|done].
  by rewrite write_binary_spec.
Qed.

Lemma meta_map_loaded_outcome f w meta :
  meta_map_loaded f (files w) meta →
  match flag_meta_map_file f with
  | None => Ok (VDict [])
  | Some path =>
      match files w !! path with
      | None => Raise (FileNotFoundError path)
      | Some raw =>
          match utf8_decode raw with
          | None => Raise UnicodeDecodeError
          | Some text => json_loads text
          end
      end
  end = Ok meta.
Proof.
  intros [Hnone|path raw text meta' Hflag Hraw Htext Hjson].
  - by rewrite Hnone.
  - by rewrite Hflag, Hraw, Htext.
Qed.

(** X7. A meta-map file that is named but missing ends [main] in
    [FileNotFoundError] for that path before anything is printed, read
    or written. *)
Theorem main_missing_meta_map_file (f : argv) (w : World) path :
  flag_meta_map_file f = Some path →
  files w !! path = None →
  main f w = (Raise (FileNotFoundError path), w).
Proof. intros Hflag Hnone. by rewrite main_outcome, Hflag, Hnone. Qed.

(** X8. When the meta-map file does not parse as JSON, [main] ends in
    the parser's exception before anything is printed, read or written. *)
Theorem main_bad_meta_map (f : argv) (w : World) path raw text e :
  flag_meta_map_file f = Some path →
  files w !! path = Some raw →
  utf8_decode raw = Some text →
  json_loads text = Raise e →
  main f w = (Raise e, w).
Proof.
  intros Hflag Hraw Htext Hjson.
  by rewrite main_outcome, Hflag, Hraw, Htext, Hjson.
Qed.

(** X9. The signing key is opened after the meta-map line is printed and
    before the payload is read: when its file is missing, [main] ends in
    [FileNotFoundError] for the key file, with that one line printed and
    no file changed. *)
Theorem main_missing_signing_key (f : argv) (w : World) meta :
  meta_map_loaded f (files w) meta →
  files w !! signing_key_file (parse_args f) = None →
  main f w =
    (Raise (FileNotFoundError (signing_key_file (parse_args f))), printed meta w).
Proof.
  intros Hmeta Hnone.
  by rewrite main_outcome, (meta_map_loaded_outcome f w meta Hmeta), Hnone.
Qed.

(** X10. With the meta map and the signing key loaded, a missing payload
    file ends [main] in [FileNotFoundError] for the payload file, with
    the meta-map line printed and no file changed. *)
Theorem main_missing_payload_file (f : argv) (w : World) meta raw pem signing_key :
  meta_map_loaded f (files w) meta →
  files w !! signing_key_file (parse_args f) = Some raw →
  utf8_decode raw = Some pem →
  SigningKey_from_pem pem = Ok signing_key →
  files w !! payload_file (parse_args f) = None →
  main f w =
    (Raise (FileNotFoundError (payload_file (parse_args f))), printed meta w).
Proof.
  intros Hmeta Hraw Hpem Hkey Hnone.
  by rewrite main_outcome, (meta_map_loaded_outcome f w meta Hmeta),
       Hraw, Hpem, Hkey, Hnone.
Qed.

(** X11. When [main] ends normally, the meta map was loaded (or is the
    empty dictionary), the key file and the payload file existed and
    decoded, the key parsed, [create_hashed_signed_statement] returned the
    signed statement for the SHA-256 digest of the encoded payload text,
    and the final world is the initial one with that statement in the
    output file, the meta-map line printed and the random generator
    stepped by the signing. *)
Theorem main_success_inv (f : argv) (w w' : World) :
  main f w = (Ok tt, w') →
  ∃ meta raw pem signing_key payraw contents signed_statement n,
    meta_map_loaded f (files w) meta ∧
    files w !! signing_key_file (parse_args f) = Some raw ∧
    utf8_decode raw = Some pem ∧
    SigningKey_from_pem pem = Ok signing_key ∧
    files w !! payload_file (parse_args f) = Some payraw ∧
    utf8_decode payraw = Some contents ∧
    create_hashed_signed_statement
      (main_call (parse_args f) signing_key
         (sha256_digest (utf8_encode contents)) meta) (printed meta w)
      = (Ok signed_statement, set_rng n (printed meta w)) ∧
    w' = mkWorld (<[output_file (parse_args f) := signed_statement]> (files w))
           (stdout w ++ [[VStr "meta_map:"; meta]]) n.
Proof.
  rewrite main_outcome. intros Hrun.
  assert (∃ meta, meta_map_loaded f (files w) meta) as [meta Hmeta].
  { destruct (flag_meta_map_file f) as [path|] eqn:Hflag;
      [|exists (VDict []); by apply meta_map_absent].
    destruct (files w !! path) as [raw|] eqn:Hraw; [|discriminate].
    destruct (utf8_decode raw) as [text|] eqn:Htext; [|discriminate].
    destruct (json_loads text) as [meta|e] eqn:Hjson; [|discriminate].
    exists meta. by eapply meta_map_read. }
  rewrite (meta_map_loaded_outcome f w meta Hmeta) in Hrun.
  destruct (files w !! signing_key_file (parse_args f)) as [raw|] eqn:Hraw;
    [|discriminate].
  destruct (utf8_decode raw) as [pem|] eqn:Hpem; [|discriminate].
  destruct (SigningKey_from_pem pem) as [sk|e] eqn:Hkey; [|discriminate].
  destruct (files w !! payload_file (parse_args f)) as [payraw|] eqn:Hpay;
    [|discriminate].
  destruct (utf8_decode payraw) as [contents|] eqn:Hcontents; [|discriminate].
  destruct (create_steps_rng_only
              (main_call (parse_args f) sk (sha256_digest (utf8_encode contents)) meta)
              (printed meta w)) as [n Hn].
  destruct (create_hashed_signed_statement _ _) as [[ss|e] w1] eqn:Hcreate;
    [|discriminate].
  simpl in Hn. subst w1. injection Hrun as <-.
  by exists meta, raw, pem, sk, payraw, contents, ss, n.
Qed.

(** X12. [main] reads nothing but its input files and the random
    generator: two worlds that agree on the meta-map file (when one is
    named), the key file, the payload file and the generator give the
    same outcome, and on success the same contents of the output file. *)
Theorem main_reads_its_inputs_only (f : argv) (w1 w2 : World) :
  (∀ path, flag_meta_map_file f = Some path → files w1 !! path = files w2 !! path) →
  files w1 !! signing_key_file (parse_args f)
    = files w2 !! signing_key_file (parse_args f) →
  files w1 !! payload_file (parse_args f)
    = files w2 !! payload_file (parse_args f) →
  rng w1 = rng w2 →
  (main f w1).1 = (main f w2).1 ∧
  rng (main f w1).2 = rng (main f w2).2 ∧
  ((main f w1).1 = Ok tt →
     files (main f w1).2 !! output_file (parse_args f)
       = files (main f w2).2 !! output_file (parse_args f)).
Proof.
  intros Hmeta Hkey Hpay Hrng. rewrite !main_outcome, Hkey, Hpay.
  assert (match flag_meta_map_file f with
          | None => Ok (VDict [])
          | Some path =>
              match files w1 !! path with
              | None => Raise (FileNotFoundError path)
              | Some raw =>
                  match utf8_decode raw with
                  | None => Raise UnicodeDecodeError
                  | Some text => json_loads text
                  end
              end
          end
          = match flag_meta_map_file f with
            | None => Ok (VDict [])
            | Some path =>
                match files w2 !! path with
                | None => Raise (FileNotFoundError path)
                | Some raw =>
                    match utf8_decode raw with
                    | None => Raise UnicodeDecodeError
                    | Some text => json_loads text
                    end
                end
            end) as ->.
  { destruct (flag_meta_map_file f) as [path|]; [|done]. by rewrite (Hmeta path). }
  destruct (match flag_meta_map_file f with None => _ | Some _ => _ end)
    as [meta|e]; [|done].
  destruct (match files w2 !! signing_key_file (parse_args f) with
            None => _ | Some _ => _ end) as [sk|e]; [|done].
  destruct (match files w2 !! payload_file (parse_args f) with
            None => _ | Some _ => _ end) as [contents|e]; [|done].
  destruct (create_frame
              (main_call (parse_args f) sk (sha256_digest (utf8_encode contents)) meta)
              (printed meta w1) (printed meta w2) Hrng) as [Hr Hn].
  destruct (create_hashed_signed_statement _ (printed meta w1)) as [r1 u1].
  destruct (create_hashed_signed_statement _ (printed meta w2)) as [r2 u2].
  simpl in Hr, Hn. subst r2.
  destruct r1 as [ss|e]; simpl; [|done].
  split; [done|]. split; [done|]. intros _. by rewrite !lookup_insert_eq.
Qed.

End MainMore.

Section StatementFacts.
Context `{cose : PyCose}.

(** X4. The key that signs is the key that the header confirms: the
    dictionary given to [CoseKey.from_dict] is an EC2 P-256 key for
    signing and verifying whose private part is the serialised signing
    key and whose x and y are the very values of the confirmation claim
    in the protected header. *)
Theorem signing_key_is_the_confirmed_key (a : call_args) w st w' :
  build_statement a w = (Ok st, w') →
  ∃ d cose_key,
    CoseKey_from_dict d = Ok cose_key ∧ msg_key st = Some cose_key ∧
    py_keys d = [KAttr KpKty; KAttr EC2KpCurve; KAttr KpKeyOps;
                 KAttr EC2KpD; KAttr EC2KpX; KAttr EC2KpY] ∧
    py_getitem d (KAttr KpKty) = Some (VConst KtyEC2) ∧
    py_getitem d (KAttr EC2KpCurve) = Some (VConst P256) ∧
    py_getitem d (KAttr KpKeyOps) = Some (VList [VConst SignOp; VConst VerifyOp]) ∧
    py_getitem d (KAttr EC2KpD) = Some (VBytes (sk_to_string (arg_signing_key a))) ∧
    py_getitem d (KAttr EC2KpX)
      = py_path (phdr st) [KInt 13; KInt 8; KInt 1; KAttr EC2KpX] ∧
    py_getitem d (KAttr EC2KpY)
      = py_path (phdr st) [KInt 13; KInt 8; KInt 1; KAttr EC2KpY].
Proof.
  intros Hrun.
  destruct (build_statement_inv a w st w' Hrun) as (_ & l & ck & Hl & Hck & ->).
  destruct (build_protected_header_inv a w l w Hl)
    as (_ & vk & label & _ & _ & _ & _ & Hhdr).
  eexists _, ck. split; [exact Hck|]. simpl. rewrite Hhdr.
  by repeat split.
Qed.

End StatementFacts.

(** X5. Whenever the protected header is built, its labels are the
    algorithm, the key identifier, -6802, 13, -6800, -6801 and -6804, in
    this order and each once, and the algorithm is Es256. *)
Theorem header_labels_in_order (a : call_args) w l w' :
  build_protected_header a w = (Ok l, w') →
  py_keys (protected_header l) =
    [KAttr Algorithm; KAttr KID; KInt (-6802); KInt 13;
     KInt (-6800); KInt (-6801); KInt (-6804)] ∧
  NoDup (py_keys (protected_header l)) ∧
  py_getitem (protected_header l) (KAttr Algorithm) = Some (VConst Es256).
Proof.
  intros Hrun.
  destruct (build_protected_header_inv a w l w' Hrun)
    as (_ & vk & label & _ & _ & _ & _ & ->).
  destruct (header_display_labels a (x_part l) (y_part l) label) as [Hk Hnd].
  by repeat split.
Qed.

(** ** Runs of the further properties *)

Lemma unsupported_value_ends_in_unbound_local_witness :
  create_hashed_signed_statement (cose := sample_cose)
    (sample_args p256_signing_key (Some (VBytes (String.list_byte_of_string "SHA-256"))))
    empty_world
  = (Raise (UnboundLocalError "payload_hash_alg_label"), empty_world).
Proof.
  apply (unsupported_value_ends_in_unbound_local (cose := sample_cose)
           (sample_args p256_signing_key
              (Some (VBytes (String.list_byte_of_string "SHA-256"))))
           (mkVerifyingKey (replicate 32 x11 ++ replicate 32 x77)) empty_world).
  - reflexivity.
  - rewrite !not_elem_of_cons. repeat split; try discriminate. apply not_elem_of_nil.
Defined.

Lemma missing_verifying_key_asserts_first_witness :
  create_hashed_signed_statement (cose := sample_cose)
    (sample_args keyless_signing_key (Some (VStr "MD5"))) empty_world
  = (Raise AssertionError, empty_world).
Proof.
  apply (missing_verifying_key_asserts_first (cose := sample_cose)
           (sample_args keyless_signing_key (Some (VStr "MD5"))) empty_world).
  reflexivity.
Defined.


Lemma signing_key_is_the_confirmed_key_witness :
  ∃ d cose_key,
    CoseKey_from_dict (PyCose := sample_cose) d = Ok cose_key ∧
    py_getitem d (KAttr EC2KpD) = Some (VBytes (replicate 32 x33)) ∧
    py_getitem d (KAttr EC2KpX) = Some (VBytes (replicate 32 x11)) ∧
    py_getitem d (KAttr EC2KpY) = Some (VBytes (replicate 32 x77)).
Proof.
  destruct (signing_key_is_the_confirmed_key (cose := sample_cose)
              (sample_args p256_signing_key None) empty_world
              (mkSign1Message
                 (header_display (sample_args p256_signing_key None)
                    (replicate 32 x11) (replicate 32 x77) (-16))
                 (VBytes (String.list_byte_of_string "digest"))
                 (Some (mkCoseKey (signing_cose_key p256_signing_key
                                     (replicate 32 x11) (replicate 32 x77)))))
              empty_world)
    as (d & ck & Hck & _ & _ & _ & _ & _ & Hd & Hx & Hy).
  - reflexivity.
  - exists d, ck. split; [exact Hck|]. split; [exact Hd|].
    split; [rewrite Hx | rewrite Hy]; reflexivity.
Defined.

Lemma header_labels_in_order_witness :
  NoDup (py_keys (header_display (sample_args p256_signing_key None)
                    (replicate 32 x11) (replicate 32 x77) (-16))).
Proof.
  apply (header_labels_in_order (sample_args p256_signing_key None) empty_world
           (mkLocals (replicate 32 x11) (replicate 32 x77)
              (header_display (sample_args p256_signing_key None)
                 (replicate 32 x11) (replicate 32 x77) (-16)))
           empty_world).
  reflexivity.
Defined.


Lemma main_missing_meta_map_file_witness :
  main (cose := sample_cose) (platform := sample_platform)
    (meta_flag "meta.json") sample_world
  = (Raise (FileNotFoundError "meta.json"), sample_world).
Proof.
  apply (main_missing_meta_map_file (cose := sample_cose) (platform := sample_platform)
           (meta_flag "meta.json") sample_world "meta.json").
  - reflexivity.
  - vm_compute. reflexivity.
Defined.

Lemma main_bad_meta_map_witness :
  main (cose := sample_cose) (platform := strict_json_platform)
    (meta_flag "scitt-payload.json") sample_world
  = (Raise (LibraryError "JSONDecodeError"), sample_world).
Proof.
  apply (main_bad_meta_map (cose := sample_cose) (platform := strict_json_platform)
           (meta_flag "scitt-payload.json") sample_world "scitt-payload.json"
           (String.list_byte_of_string "hello") "hello").
  - reflexivity.
  - vm_compute. reflexivity.
  - reflexivity.
  - reflexivity.
Defined.

Lemma main_missing_signing_key_witness :
  main (cose := sample_cose) (platform := sample_platform) no_flags empty_world
  = (Raise (FileNotFoundError "scitt-signing-key.pem"), printed (VDict []) empty_world).
Proof.
  apply (main_missing_signing_key (cose := sample_cose) (platform := sample_platform)
           no_flags empty_world (VDict [])).
  - apply meta_map_absent. reflexivity.
  - vm_compute. reflexivity.
Defined.

Lemma main_missing_payload_file_witness :
  main (cose := sample_cose) (platform := sample_platform) no_flags
    (mkWorld {["scitt-signing-key.pem" := String.list_byte_of_string "pem"]} [] 0)
  = (Raise (FileNotFoundError "scitt-payload.json"),
     printed (VDict [])
       (mkWorld {["scitt-signing-key.pem" := String.list_byte_of_string "pem"]} [] 0)).
Proof.
  apply (main_missing_payload_file (cose := sample_cose) (platform := sample_platform)
           no_flags _ (VDict []) (String.list_byte_of_string "pem") "pem"
           p256_signing_key).
  - apply meta_map_absent. reflexivity.
  - vm_compute. reflexivity.
  - reflexivity.
  - reflexivity.
  - vm_compute. reflexivity.
Defined.

Lemma main_success_inv_witness :
  ∃ signing_key contents signed_statement n,
    SigningKey_from_pem (Platform := sample_platform) "pem" = Ok signing_key ∧
    utf8_decode (Platform := sample_platform) (String.list_byte_of_string "hello")
      = Some contents ∧
    create_hashed_signed_statement (cose := sample_cose)
      (main_call (parse_args no_flags) signing_key
         (sha256_digest (Platform := sample_platform)
            (utf8_encode (Platform := sample_platform) contents)) (VDict []))
      (printed (VDict []) sample_world)
      = (Ok signed_statement, set_rng n (printed (VDict []) sample_world)).
Proof.
  destruct (main_success_inv (cose := sample_cose) (platform := sample_platform)
              no_flags sample_world
              (main (cose := sample_cose) (platform := sample_platform)
                 no_flags sample_world).2)
    as (meta & raw & pem & sk & payraw & contents & ss & n
        & Hmeta & Hraw & Hpem & Hkey & Hpay & Hcontents & Hcreate & _).
  - vm_compute. reflexivity.
  - inversion Hmeta; subst; [|discriminate].
    vm_compute in Hraw. injection Hraw as <-.
    vm_compute in Hpay. injection Hpay as <-.
    injection Hpem as <-.
    exists sk, contents, ss, n. split; [exact Hkey|]. split; [exact Hcontents|].
    exact Hcreate.
Defined.

Lemma main_reads_its_inputs_only_witness :
  (main (cose := sample_cose) (platform := sample_platform) no_flags sample_world).1
  = (main (cose := sample_cose) (platform := sample_platform) no_flags
       (set_files (λ fs, <["unrelated.txt" := []]> fs) sample_world)).1.
Proof.
  apply (main_reads_its_inputs_only (cose := sample_cose) (platform := sample_platform)
           no_flags sample_world
           (set_files (λ fs, <["unrelated.txt" := []]> fs) sample_world)).
  - intros path Hflag. discriminate Hflag.
  - vm_compute. reflexivity.
  - vm_compute. reflexivity.
  - reflexivity.
Defined.

(** * Properties of the DataTrails link *)

Module DataTrailsFacts.
Import DataTrails.

(** ** Dictionaries with string keys *)

Lemma sdict_get_set k j v d :
  sdict_get k (sdict_set j v d) = if String.eqb j k then Some v else sdict_get k d.
Proof.
  induction d as [|[i u] d IH]; simpl.
  - done.
  - destruct (String.eqb i j) eqn:Eij; simpl.
    + apply String.eqb_eq in Eij as ->. by destruct (String.eqb j k).
    + rewrite IH. destruct (String.eqb j k) eqn:Ejk; [|done].
      apply String.eqb_eq in Ejk as ->. by rewrite Eij.
Qed.

Lemma sdict_get_None k (d : list (string * value)) :
  sdict_get k d = None ↔ k ∉ d.*1.
Proof.
  induction d as [|[j u] d IH]; simpl.
  - split; [intros _; apply not_elem_of_nil | done].
  - rewrite not_elem_of_cons. destruct (String.eqb j k) eqn:E.
    + apply String.eqb_eq in E as ->. split; [discriminate | by intros [? _]].
    + apply String.eqb_neq in E. rewrite IH. split; [by intros ? | by intros [_ ?]].
Qed.

Lemma sdict_get_update k (d e : list (string * value)) :
  NoDup e.*1 →
  sdict_get k (sdict_update d e)
    = match sdict_get k e with
      | Some v => Some v
      | None => sdict_get k d
      end.
Proof.
  unfold sdict_update. revert d.
  induction e as [|[j u] e IH]; intros d Hnd; simpl; [done|].
  apply NoDup_cons in Hnd as [Hj Hnd]. simpl in Hj.
  rewrite (IH _ Hnd), sdict_get_set.
  destruct (String.eqb j k) eqn:E; [|done].
  apply String.eqb_eq in E as ->.
  apply (proj2 (sdict_get_None _ _)) in Hj. by rewrite Hj.
Qed.

Lemma sdict_get_update_keeps k (d e : list (string * value)) :
  is_Some (sdict_get k d) → is_Some (sdict_get k (sdict_update d e)).
Proof.
  unfold sdict_update. revert d.
  induction e as [|[j u] e IH]; intros d Hd; simpl; [done|].
  apply IH. rewrite sdict_get_set. by destruct (String.eqb j k).
Qed.

Section LinkFacts.
Context `{ext : Externals}.

(** ** The monad *)

Lemma dt_bind_cases {A B} (m : M A) (f : A → M B) s r s' :
  (m ≫= f) s = (r, s') →
  (∃ e, m s = (Raise e, s') ∧ r = Raise e) ∨
  (∃ a s0, m s = (Ok a, s0) ∧ f a s0 = (r, s')).
Proof.
  unfold mbind, M_bind. destruct (m s) as [[a|e] s0].
  - intros Hf. right. eauto.
  - intros [= <- <-]. left. eauto.
Qed.

Lemma dt_bind_Ok {A B} (m : M A) (f : A → M B) s a s' :
  m s = (Ok a, s') → (m ≫= f) s = f a s'.
Proof. unfold mbind, M_bind. by intros ->. Qed.

Lemma dt_bind_Raise {A B} (m : M A) (f : A → M B) s e s' :
  m s = (Raise e, s') → (m ≫= f) s = (Raise e, s').
Proof. unfold mbind, M_bind. by intros ->. Qed.

(** ** [run]: the checks before any request *)

(** X13. The credentials are checked before anything else happens: when
    the merged options give a false value (empty string, [None], ...) for
    [client_id] or [client_secret], [run] ends in [ValueError] with one
    line logged, no object built, no request sent and Redis not read. *)
Theorem run_rejects_missing_credentials
    (vcon_uuid link_name : string) (opts : option (list (string * value)))
    (s : Env) (id secret : value) :
  sdict_get "client_id" (merge_options (default default_options opts)) = Some id →
  sdict_get "client_secret" (merge_options (default default_options opts)) = Some secret →
  truthy id && truthy secret = false →
  run vcon_uuid link_name opts s =
    (Raise (ValueError "DataTrails client ID and client secret must be provided"),
     set_logged (logged s ++ ["Starting DataTrails link for vCon: " +:+ vcon_uuid]) s).
Proof.
  intros Hid Hsecret Hfalsy.
  unfold run, mbind, M_bind, logger_info, modify, lift, subscript. simpl.
  rewrite Hid. destruct (truthy id); simpl; [|done].
  rewrite Hsecret. simpl in Hfalsy. by rewrite Hfalsy.
Qed.

(** X14. With credentials present, a vCon that Redis does not have ends
    [run] in the 404 [HTTPException] naming the uuid: two lines are
    logged, no request is sent, no token is fetched and nothing is
    stored. *)
Theorem run_vcon_not_found
    (vcon_uuid link_name : string) (opts : option (list (string * value)))
    (s : Env) (url id secret : value) :
  sdict_get "auth_url" (merge_options (default default_options opts)) = Some url →
  sdict_get "client_id" (merge_options (default default_options opts)) = Some id →
  sdict_get "client_secret" (merge_options (default default_options opts)) = Some secret →
  truthy id = true → truthy secret = true →
  get_vcon (redis s) vcon_uuid = Ok None →
  run vcon_uuid link_name opts s =
    (Raise (HTTPException 404 ("vCon not found: " +:+ vcon_uuid)),
     mkEnv (mkAuth url id secret JNone None) (sent s) (server s) (time_at s)
       (clock_reads s) (dir_modes s) (text_files s) (redis s)
       (logged s ++ ["Starting DataTrails link for vCon: " +:+ vcon_uuid;
                     "vCon not found: " +:+ vcon_uuid])).
Proof.
  intros Hurl Hid Hsecret Tid Tsecret Hget.
  unfold run, mbind, M_bind, logger_info, modify, lift, subscript. simpl.
  rewrite Hid, Tid. simpl. rewrite Hsecret, Tsecret. simpl.
  rewrite Hurl. simpl. rewrite Hget. simpl.
  unfold set_auth, set_logged. simpl. by rewrite <- app_assoc.
Qed.

(** ** [DataTrailsAuth] *)

Lemma raise_for_status_ok r s :
  ok_status r → raise_for_status r s = (Ok tt, s).
Proof.
  unfold ok_status, raise_for_status. intros Hok.
  destruct (Z.leb 400 (status_code r) && Z.ltb (status_code r) 600) eqn:E; [|done].
  apply andb_true_iff in E as [E1 E2].
  apply Z.leb_le in E1. apply Z.ltb_lt in E2. lia.
Qed.

Lemma raise_for_status_error r s :
  (400 ≤ status_code r < 600)%Z →
  raise_for_status r s = (Raise (HTTPError (status_code r)), s).
Proof.
  unfold raise_for_status. intros [H1 H2].
  apply Z.leb_le in H1. apply Z.ltb_lt in H2. by rewrite H1, H2.
Qed.

(** X15. A token that is set and not yet at its expiry is returned as it
    is: one reading of the clock, no request, no file written. *)
Theorem get_token_reuses_valid_token (s : Env) (expiry : Z) :
  token (auth s) ≠ JNone →
  token_expiry (auth s) = Some expiry →
  (time_at s (clock_reads s) < expiry)%Z →
  get_token s = (Ok (token (auth s)), set_clock_reads (S (clock_reads s)) s).
Proof.
  intros Htoken Hexpiry Hvalid.
  unfold get_token, mbind, M_bind, get_env, datetime_now. simpl.
  destruct (token (auth s)) eqn:Ht; try done; simpl;
    rewrite Hexpiry; simpl;
    (replace (Z.leb expiry (time_at s (clock_reads s))) with false
       by (symmetry; apply Z.leb_gt; lia));
    simpl; by rewrite Ht.
Qed.

Lemma refresh_token_granted (s : Env) (resp : response)
    (token_data : list (string * value)) (access : value) (n : Z) :
  server s (sent s) (token_request (auth s)) = Ok resp →
  ok_status resp →
  json resp = Ok (JDict token_data) →
  sdict_get "access_token" token_data = Some access →
  sdict_get "expires_in" token_data = Some (JInt n) →
  (-999999999 ≤ (n - 300) / 86400 ≤ 999999999)%Z →
  (0 ≤ time_at s (clock_reads s) + (n - 300) * 1000000 ≤ datetime_max)%Z →
  refresh_token s =
    (Ok tt,
     mkEnv
       (mkAuth (auth_url (auth s)) (client_id (auth s)) (client_secret (auth s))
          access (Some (time_at s (clock_reads s) + (n - 300) * 1000000)%Z))
       (sent s ++ [token_request (auth s)]) (server s) (time_at s)
       (S (clock_reads s))
       (<[datatrails_dir := 448%Z]> (dir_modes s))
       (<[token_file := "Authorization: Bearer " +:+ str_of access]> (text_files s))
       (redis s) (logged s)).
Proof.
  intros Hresp Hok Hjson Haccess Hexpires Hdelta Hrange.
  unfold refresh_token, mbind, M_bind, get_env, requests_post. simpl.
  rewrite Hresp. simpl. rewrite (raise_for_status_ok _ _ Hok).
  unfold lift. rewrite Hjson. simpl. rewrite Haccess, Hexpires. simpl.
  unfold timedelta_seconds, datetime_add.
  destruct Hdelta as [Hd1 Hd2]. apply Z.leb_le in Hd1, Hd2. rewrite Hd1, Hd2. simpl.
  destruct Hrange as [Hr1 Hr2]. apply Z.leb_le in Hr1, Hr2. rewrite Hr1, Hr2. simpl.
  f_equal. unfold set_text_files, set_dir_modes, set_auth, set_clock_reads, set_sent.
  simpl. f_equal.
  destruct (dir_modes s !! datatrails_dir); simpl; [done|].
  by rewrite insert_insert_eq.
Qed.

Lemma refresh_token_refused (s : Env) (resp : response) :
  server s (sent s) (token_request (auth s)) = Ok resp →
  (400 ≤ status_code resp < 600)%Z →
  refresh_token s =
    (Raise (HTTPError (status_code resp)),
     set_sent (sent s ++ [token_request (auth s)]) s).
Proof.
  intros Hresp Herr.
  unfold refresh_token, mbind, M_bind, get_env, requests_post. simpl.
  rewrite Hresp. simpl. by rewrite (raise_for_status_error _ _ Herr).
Qed.

(** ** What a computation leaves alone *)

Lemma keeps_ret {A B} (f : Env → B) (a : A) : keeps f (mret a).
Proof. done. Qed.

Lemma keeps_raise {A B} (f : Env → B) e : keeps f (raise (A := A) e).
Proof. done. Qed.

Lemma keeps_lift {A B} (f : Env → B) (r : result A) : keeps f (lift r).
Proof. done. Qed.

Lemma keeps_get_env {B} (f : Env → B) : keeps f get_env.
Proof. done. Qed.

Lemma keeps_modify {B} (f : Env → B) g :
  (∀ s, f (g s) = f s) → keeps f (modify g).
Proof. intros Hg s. apply Hg. Qed.

Lemma keeps_bind {A B C} (f : Env → C) (m : M A) (k : A → M B) :
  keeps f m → (∀ a, keeps f (k a)) → keeps f (m ≫= k).
Proof.
  intros Hm Hk s. unfold mbind, M_bind. specialize (Hm s).
  destruct (m s) as [[a|e] s0]; simpl in *; [|done].
  by rewrite (Hk a s0).
Qed.

Lemma keeps_raise_for_status {B} (f : Env → B) r : keeps f (raise_for_status r).
Proof. unfold raise_for_status. by destruct (_ && _). Qed.

Lemma keeps_datetime_now {B} (f : Env → B) :
  (∀ s n, f (set_clock_reads n s) = f s) → keeps f datetime_now.
Proof. intros Hf s. apply Hf. Qed.

Lemma keeps_requests_post {B} (f : Env → B) r :
  (∀ s l, f (set_sent l s) = f s) → keeps f (requests_post r).
Proof. intros Hf s. apply Hf. Qed.

Lemma keeps_makedirs {B} (f : Env → B) d :
  (∀ s m, f (set_dir_modes m s) = f s) → keeps f (makedirs_exist_ok d).
Proof.
  intros Hf s. unfold makedirs_exist_ok, modify. simpl.
  destruct (dir_modes s !! d); [done | apply Hf].
Qed.

Ltac keeps_step :=
  first
    [ apply keeps_bind; [|intros ?]
    | apply keeps_ret | apply keeps_raise | apply keeps_lift | apply keeps_get_env
    | apply keeps_raise_for_status
    | apply keeps_datetime_now; done
    | apply keeps_requests_post; done
    | apply keeps_makedirs; done
    | apply keeps_modify; intros; done ].

Lemma refresh_token_keeps_redis : keeps redis refresh_token.
Proof.
  unfold refresh_token, assign_token, assign_token_expiry, chmod, write_text.
  repeat keeps_step.
Qed.

Lemma get_token_keeps_redis : keeps redis get_token.
Proof.
  unfold get_token. keeps_step; [keeps_step|].
  keeps_step.
  - destruct (is_None _); repeat keeps_step.
    destruct (token_expiry _); keeps_step.
  - keeps_step; [|repeat keeps_step].
    destruct a0; [apply refresh_token_keeps_redis | keeps_step].
Qed.

Lemma create_asset_keeps_redis api attributes behaviours :
  keeps redis (create_asset api attributes behaviours).
Proof.
  unfold create_asset. keeps_step; [apply get_token_keeps_redis|].
  repeat keeps_step.
Qed.

Lemma create_event_keeps_redis api asset_id attributes :
  keeps redis (create_event api asset_id attributes).
Proof.
  unfold create_event. keeps_step; [apply get_token_keeps_redis|].
  repeat keeps_step.
Qed.

(** ** [run]: what is stored, and when *)

Lemma settled_bind {A} vcon_uuid r (m : M A) (k : A → M string) s :
  redis s = r →
  keeps redis m →
  (∀ a s0, m s = (Ok a, s0) → redis s0 = r → settled vcon_uuid r (k a s0)) →
  settled vcon_uuid r ((m ≫= k) s).
Proof.
  intros Hr Hm Hk. unfold mbind, M_bind. specialize (Hm s).
  destruct (m s) as [[a|e] s0] eqn:Hrun; simpl in *.
  - apply (Hk a s0); congruence.
  - unfold settled. simpl. congruence.
Qed.

Lemma logger_info_keeps_redis line : keeps redis (logger_info line).
Proof. unfold logger_info. keeps_step. Qed.

Lemma run_settled vcon_uuid link_name opts s :
  settled vcon_uuid (redis s) (run vcon_uuid link_name opts s).
Proof.
  unfold run.
  apply settled_bind; [done | apply logger_info_keeps_redis | intros _ s1 _ Hr1].
  apply settled_bind; [done | keeps_step | intros id s2 _ Hr2].
  apply settled_bind; [done | | intros missing s3 _ Hr3].
  { destruct (negb (truthy id)); repeat keeps_step. }
  destruct missing; [unfold settled; simpl; done|].
  apply settled_bind; [done | keeps_step | intros ? s4 _ Hr4].
  apply settled_bind; [done | keeps_step | intros ? s5 _ Hr5].
  apply settled_bind; [done | keeps_step | intros ? s6 _ Hr6].
  apply settled_bind;
    [done | unfold DataTrailsAuth_init; keeps_step | intros _ s7 _ Hr7].
  apply settled_bind; [done | keeps_step | intros s8 s8' [= <- <-] Hr8].
  apply settled_bind; [done | keeps_step | intros found s9 Hfound Hr9].
  injection Hfound as Hfound <-. rewrite Hr8 in Hfound.
  destruct found as [v|]; cycle 1.
  { apply settled_bind; [done | apply logger_info_keeps_redis | intros _ s10 _ Hr10].
    unfold settled. simpl. done. }
  apply settled_bind; [done | | intros [asset_id v'] s10 Hbranch Hr10].
  { destruct (negb (truthy (get_tag v "datatrails_asset_id"))).
    - keeps_step; [apply logger_info_keeps_redis|].
      do 2 (keeps_step; [keeps_step|]).
      keeps_step; [apply logger_info_keeps_redis|].
      do 2 (keeps_step; [keeps_step|]).
      keeps_step; [apply create_asset_keeps_redis|].
      repeat keeps_step.
    - keeps_step; [apply logger_info_keeps_redis | keeps_step]. }
  assert (truthy (get_tag v "datatrails_asset_id") = true ∧ v' = v ∨
          truthy (get_tag v "datatrails_asset_id") = false ∧
          ∃ asset_id,
            v' = add_tag (add_tag v "datatrails_asset_id" asset_id)
                   "datatrails_asset_name"
                   (py_or (vcon_subject v) (JStr ("vcon:" +:+ vcon_uuid))))
    as Htagged.
  { destruct (truthy (get_tag v "datatrails_asset_id")) eqn:Htag; simpl in Hbranch.
    - left. split; [done|].
      apply dt_bind_cases in Hbranch as [(e & _ & [=])|(? & ? & _ & Hbranch)].
      by injection Hbranch as _ <- _.
    - right. split; [done|].
      repeat (apply dt_bind_cases in Hbranch
                as [(e & _ & [=])|(? & ? & _ & Hbranch)]).
      injection Hbranch as <- <- _. eauto. }
  clear Hbranch.
  apply settled_bind; [done | keeps_step | intros ? s11 _ Hr11].
  apply settled_bind; [done | keeps_step | intros ? s12 _ Hr12].
  apply settled_bind; [done | keeps_step | intros ? s13 _ Hr13].
  apply settled_bind; [done | apply create_event_keeps_redis | intros event s14 _ Hr14].
  apply settled_bind; [done | keeps_step | intros event_id s15 _ Hr15].
  apply settled_bind; [done | apply logger_info_keeps_redis | intros _ s16 _ Hr16].
  unfold settled, mbind, M_bind, get_env, lift, modify, logger_info. simpl.
  rewrite Hr16.
  destruct (store_vcon (redis s) v') as [stored|e] eqn:Hstore; simpl; [|done].
  split; [done|]. exists v, v'. by rewrite Hfound.
Qed.

(** X16. [run] stores the vCon as its last fallible step: if it ends in
    an exception, wherever it was raised, Redis is as it was; if it
    returns, it returns the uuid it was given, the vCon was found under
    that uuid and what is stored is that vCon, unchanged when it carried
    an asset tag and with the two asset tags added when it did not. *)
Theorem run_stores_only_on_success
    (vcon_uuid link_name : string) (opts : option (list (string * value))) (s : Env) :
  match (run vcon_uuid link_name opts s).1 with
  | Raise _ => redis (run vcon_uuid link_name opts s).2 = redis s
  | Ok returned =>
      returned = vcon_uuid ∧
      ∃ v v',
        get_vcon (redis s) vcon_uuid = Ok (Some v) ∧
        (truthy (get_tag v "datatrails_asset_id") = true ∧ v' = v ∨
         truthy (get_tag v "datatrails_asset_id") = false ∧
         ∃ asset_id,
           v' = add_tag (add_tag v "datatrails_asset_id" asset_id)
                  "datatrails_asset_name"
                  (py_or (vcon_subject v) (JStr ("vcon:" +:+ vcon_uuid)))) ∧
        store_vcon (redis s) v' = Ok (redis (run vcon_uuid link_name opts s).2)
  end.
Proof. apply run_settled. Qed.

(** ** [get_token] *)

Lemma refresh_token_sends_one s :
  sent (refresh_token s).2 = sent s ++ [token_request (auth s)].
Proof.
  unfold refresh_token. unfold mbind at 1, M_bind at 1. simpl.
  unfold mbind at 1, M_bind at 1. unfold requests_post at 1.
  destruct (server s (sent s) (token_request (auth s))) as [resp|e]; [|done].
  match goal with
  | |- sent (?rest ?s1).2 = _ =>
      assert (keeps sent rest) as Hrest; [|by rewrite (Hrest s1)]
  end.
  unfold assign_token, assign_token_expiry, chmod, write_text.
  repeat keeps_step.
Qed.

(** X17. With no token yet, [get_token] sends one client-credentials
    request without reading the clock first; when the server grants a
    token for [n] seconds, that token is returned and kept, the expiry is
    the clock reading after the answer plus [n - 300] seconds, the
    directory of the token file has mode 0o700 and the file holds the
    bearer line in clear text. *)
Theorem get_token_fetches_when_unset (s : Env) (resp : response)
    (token_data : list (string * value)) (access : value) (n : Z) :
  token (auth s) = JNone →
  server s (sent s) (token_request (auth s)) = Ok resp →
  ok_status resp →
  json resp = Ok (JDict token_data) →
  sdict_get "access_token" token_data = Some access →
  sdict_get "expires_in" token_data = Some (JInt n) →
  (-999999999 ≤ (n - 300) / 86400 ≤ 999999999)%Z →
  (0 ≤ time_at s (clock_reads s) + (n - 300) * 1000000 ≤ datetime_max)%Z →
  get_token s =
    (Ok access,
     mkEnv
       (mkAuth (auth_url (auth s)) (client_id (auth s)) (client_secret (auth s))
          access (Some (time_at s (clock_reads s) + (n - 300) * 1000000)%Z))
       (sent s ++ [token_request (auth s)]) (server s) (time_at s)
       (S (clock_reads s))
       (<[datatrails_dir := 448%Z]> (dir_modes s))
       (<[token_file := "Authorization: Bearer " +:+ str_of access]> (text_files s))
       (redis s) (logged s)).
Proof.
  intros Hnone Hresp Hok Hjson Haccess Hexpires Hdelta Hrange.
  unfold get_token. unfold mbind at 1, M_bind at 1. simpl. rewrite Hnone. simpl.
  unfold mbind at 1, M_bind at 1. simpl.
  unfold mbind at 1, M_bind at 1.
  by rewrite (refresh_token_granted s resp token_data access n).
Qed.

(** X18. When the token request is answered with a status from 400 to
    599, [get_token] ends in [HTTPError] with that status; the object
    keeps no token and no file is written. *)
Theorem get_token_http_error (s : Env) (resp : response) :
  token (auth s) = JNone →
  server s (sent s) (token_request (auth s)) = Ok resp →
  (400 ≤ status_code resp < 600)%Z →
  get_token s =
    (Raise (HTTPError (status_code resp)),
     set_sent (sent s ++ [token_request (auth s)]) s).
Proof.
  intros Hnone Hresp Herr.
  unfold get_token. unfold mbind at 1, M_bind at 1. simpl. rewrite Hnone. simpl.
  unfold mbind at 1, M_bind at 1. simpl.
  unfold mbind at 1, M_bind at 1.
  by rewrite (refresh_token_refused s resp).
Qed.

(** X19. A token at or past its expiry is never returned without asking
    again: [get_token] sends exactly one new client-credentials request,
    whatever the server then answers. *)
Theorem get_token_refetches_when_expired (s : Env) (expiry : Z) :
  token (auth s) ≠ JNone →
  token_expiry (auth s) = Some expiry →
  (expiry ≤ time_at s (clock_reads s))%Z →
  sent (get_token s).2 = sent s ++ [token_request (auth s)].
Proof.
  intros Htoken Hexpiry Hstale.
  unfold get_token. unfold mbind at 1, M_bind at 1. simpl.
  assert (is_None (token (auth s)) = false) as ->
    by (by destruct (token (auth s))).
  unfold mbind at 1, M_bind at 1. unfold mbind at 1, M_bind at 1.
  unfold datetime_now at 1. rewrite Hexpiry. simpl.
  apply Z.leb_le in Hstale. rewrite Hstale.
  unfold mbind at 1, M_bind at 1.
  pose proof (refresh_token_sends_one (set_clock_reads (S (clock_reads s)) s)) as Hone.
  destruct (refresh_token _) as [[[]|e] s1]; simpl in *; by rewrite Hone.
Qed.

(** X20. The token is assigned before the lifetime is read: when the
    answer carries a token but no [expires_in], [get_token] ends in
    [KeyError] with the token kept, no expiry and no file written, and
    the next [get_token] on the same object ends in [TypeError] without
    sending a request. *)
Theorem token_without_expiry_breaks_the_object (s : Env) (resp : response)
    (token_data : list (string * value)) (access : value) :
  token (auth s) = JNone →
  token_expiry (auth s) = None →
  server s (sent s) (token_request (auth s)) = Ok resp →
  ok_status resp →
  json resp = Ok (JDict token_data) →
  sdict_get "access_token" token_data = Some access →
  sdict_get "expires_in" token_data = None →
  access ≠ JNone →
  (get_token s).1 = Raise (KeyError "expires_in") ∧
  token (auth (get_token s).2) = access ∧
  token_expiry (auth (get_token s).2) = None ∧
  text_files (get_token s).2 = text_files s ∧
  (get_token (get_token s).2).1 = Raise TypeError ∧
  sent (get_token (get_token s).2).2 = sent (get_token s).2.
Proof.
  intros Hnone Hexp Hresp Hok Hjson Haccess Hexpires Hset.
  assert (get_token s =
            (Raise (KeyError "expires_in"),
             mkEnv
               (mkAuth (auth_url (auth s)) (client_id (auth s))
                  (client_secret (auth s)) access None)
               (sent s ++ [token_request (auth s)]) (server s) (time_at s)
               (S (clock_reads s)) (dir_modes s) (text_files s)
               (redis s) (logged s))) as ->.
  { unfold get_token. unfold mbind at 1, M_bind at 1. simpl. rewrite Hnone. simpl.
    unfold mbind at 1, M_bind at 1. simpl.
    unfold mbind at 1, M_bind at 1.
    unfold refresh_token, mbind, M_bind, get_env, requests_post. simpl.
    rewrite Hresp. simpl. rewrite (raise_for_status_ok _ _ Hok).
    unfold lift. rewrite Hjson. simpl. rewrite Haccess, Hexpires. simpl.
    by rewrite Hexp. }
  simpl. repeat split.
  - unfold get_token, mbind, M_bind, get_env, datetime_now. simpl.
    by destruct access.
  - unfold get_token, mbind, M_bind, get_env, datetime_now. simpl.
    by destruct access.
Qed.

Lemma get_token_unset s :
  token (auth s) = JNone →
  get_token s =
    match refresh_token s with
    | (Ok _, s1) => (Ok (token (auth s1)), s1)
    | (Raise e, s1) => (Raise e, s1)
    end.
Proof.
  intros Hnone.
  unfold get_token. unfold mbind at 1, M_bind at 1. simpl. rewrite Hnone. simpl.
  unfold mbind at 1, M_bind at 1. simpl.
  unfold mbind at 1, M_bind at 1.
  by destruct (refresh_token s) as [[[]|e] s1].
Qed.

Ltac env_norm :=
  cbv beta iota delta
    [set_auth set_sent set_clock_reads set_dir_modes set_text_files set_redis
     set_logged] in *;
  cbn [auth sent server time_at clock_reads dir_modes text_files redis logged
       auth_url client_id client_secret token token_expiry] in *.

Ltac step tac := (erewrite dt_bind_Ok; [|tac]); env_norm.

Ltac step_refl := step ltac:(reflexivity).

Ltac step_subscript H :=
  step ltac:(unfold lift, subscript; rewrite H; reflexivity).

(** The steps of [run] up to the look-up of the vCon. *)
Ltac run_to_vcon Hurl Hid Hsecret Tid Tsecret Hget :=
  step_refl;
  step_subscript Hid;
  rewrite Tid; cbn [negb];
  step ltac:(erewrite dt_bind_Ok;
               [|unfold lift, subscript; rewrite Hsecret; reflexivity];
             rewrite Tsecret; reflexivity);
  cbn [negb];
  step_subscript Hurl; step_subscript Hid; step_subscript Hsecret;
  step_refl; step_refl;
  step ltac:(unfold lift; env_norm; rewrite Hget; reflexivity);
  cbv beta iota zeta.

Lemma create_event_run api asset_id d s bearer s1 resp :
  get_token s = (Ok bearer, s1) →
  server s1 (sent s1)
    (event_request api asset_id bearer
       (sdict_update [("arc_display_type", JStr "vCon")] d)) = Ok resp →
  ok_status resp →
  create_event api asset_id (JDict d) s =
    (json resp,
     set_sent (sent s1 ++ [event_request api asset_id bearer
                             (sdict_update [("arc_display_type", JStr "vCon")] d)]) s1).
Proof.
  intros Htoken Hresp Hok. unfold create_event.
  erewrite dt_bind_Ok; [|exact Htoken].
  erewrite dt_bind_Ok; [|reflexivity].
  erewrite dt_bind_Ok; [|unfold requests_post; rewrite Hresp; reflexivity].
  erewrite dt_bind_Ok; [|by apply raise_for_status_ok].
  reflexivity.
Qed.

Lemma create_asset_run api d behaviours s bearer s1 resp :
  get_token s = (Ok bearer, s1) →
  server s1 (sent s1)
    (asset_request api bearer
       (sdict_update [("arc_display_type", JStr "Publish")] d) behaviours) = Ok resp →
  ok_status resp →
  create_asset api (JDict d) behaviours s =
    (json resp,
     set_sent (sent s1 ++ [asset_request api bearer
                             (sdict_update [("arc_display_type", JStr "Publish")] d)
                             behaviours]) s1).
Proof.
  intros Htoken Hresp Hok. unfold create_asset.
  erewrite dt_bind_Ok; [|exact Htoken].
  erewrite dt_bind_Ok; [|reflexivity].
  erewrite dt_bind_Ok; [|unfold requests_post; rewrite Hresp; reflexivity].
  erewrite dt_bind_Ok; [|by apply raise_for_status_ok].
  reflexivity.
Qed.

Lemma get_token_set s expiry :
  token (auth s) ≠ JNone →
  token_expiry (auth s) = Some expiry →
  get_token s =
    if Z.leb expiry (time_at s (clock_reads s)) then
      match refresh_token (set_clock_reads (S (clock_reads s)) s) with
      | (Ok _, s1) => (Ok (token (auth s1)), s1)
      | (Raise e, s1) => (Raise e, s1)
      end
    else (Ok (token (auth s)), set_clock_reads (S (clock_reads s)) s).
Proof.
  intros Htoken Hexpiry.
  unfold get_token. unfold mbind at 1, M_bind at 1. simpl.
  assert (is_None (token (auth s)) = false) as ->
    by (by destruct (token (auth s))).
  unfold mbind at 1, M_bind at 1. unfold mbind at 1, M_bind at 1.
  unfold datetime_now at 1. rewrite Hexpiry. simpl.
  destruct (Z.leb expiry (time_at s (clock_reads s))).
  - unfold mbind at 1, M_bind at 1.
    by destruct (refresh_token _) as [[[]|e] s1].
  - reflexivity.
Qed.

(** ** [run] on a vCon that already has its asset *)

(** X21. For a vCon that carries an asset tag, a run in which the server
    grants the token and accepts the event sends exactly two requests,
    the token request and the event under
    [api_url + asset_id + "/events"], with both hash attributes equal to
    the hash of the vCon; it stores the vCon as it was fetched, logs four
    lines and returns the uuid. *)
Theorem run_existing_asset
    (vcon_uuid link_name : string) (opts : option (list (string * value)))
    (s : Env) (url id secret api : value) (configured : list (string * value))
    (v : Vcon) (resp1 resp2 : response) (token_data : list (string * value))
    (access : value) (n : Z) (event event_id : value) (stored : Redis) :
  let merged := merge_options (default default_options opts) in
  let self := mkAuth url id secret JNone None in
  let asset_id := get_tag v "datatrails_asset_id" in
  let event_attributes :=
    sdict_update configured [
      ("document_hash_value", vcon_hash v);
      ("document_original_hash_value", vcon_hash v);
      ("document_version", py_or (vcon_updated_at v) (vcon_created_at v));
      ("subject", JStr vcon_uuid);
      ("vcon_uuid", JStr vcon_uuid)] in
  let posted :=
    event_request api asset_id access
      (sdict_update [("arc_display_type", JStr "vCon")] event_attributes) in
  sdict_get "auth_url" merged = Some url →
  sdict_get "client_id" merged = Some id →
  sdict_get "client_secret" merged = Some secret →
  sdict_get "api_url" merged = Some api →
  sdict_get "event_attributes" merged = Some (JDict configured) →
  truthy id = true → truthy secret = true →
  get_vcon (redis s) vcon_uuid = Ok (Some v) →
  truthy asset_id = true →
  server s (sent s) (token_request self) = Ok resp1 →
  ok_status resp1 →
  json resp1 = Ok (JDict token_data) →
  sdict_get "access_token" token_data = Some access →
  sdict_get "expires_in" token_data = Some (JInt n) →
  (-999999999 ≤ (n - 300) / 86400 ≤ 999999999)%Z →
  (0 ≤ time_at s (clock_reads s) + (n - 300) * 1000000 ≤ datetime_max)%Z →
  server s (sent s ++ [token_request self]) posted = Ok resp2 →
  ok_status resp2 →
  json resp2 = Ok event →
  subscript event "identity" = Ok event_id →
  store_vcon (redis s) v = Ok stored →
  run vcon_uuid link_name opts s =
    (Ok vcon_uuid,
     mkEnv
       (mkAuth url id secret access
          (Some (time_at s (clock_reads s) + (n - 300) * 1000000)%Z))
       (sent s ++ [token_request self; posted]) (server s) (time_at s)
       (S (clock_reads s))
       (<[datatrails_dir := 448%Z]> (dir_modes s))
       (<[token_file := "Authorization: Bearer " +:+ str_of access]> (text_files s))
       stored
       (logged s ++ [
          "Starting DataTrails link for vCon: " +:+ vcon_uuid;
          "DataTrails Asset found: " +:+ str_of asset_id;
          "Created DataTrails Event: " +:+ str_of event_id;
          "Finished DataTrails asset link for vCon: " +:+ vcon_uuid])).
Proof.
  intros merged self asset_id event_attributes posted
    Hurl Hid Hsecret Hapi Hconfigured Tid Tsecret Hget Htag
    Hresp1 Hok1 Hjson1 Haccess Hexpires Hdelta Hrange
    Hresp2 Hok2 Hjson2 Hevent Hstore.
  subst asset_id event_attributes posted.
  destruct s as [a0 requests srv clock reads dirs texts rds lines]. env_norm.
  unfold run. fold merged.
  run_to_vcon Hurl Hid Hsecret Tid Tsecret Hget.
  rewrite Htag. cbn [negb]. cbv beta iota.
  step ltac:(erewrite dt_bind_Ok; [|reflexivity]; reflexivity).
  cbv beta iota.
  step_subscript Hconfigured. step_refl. step_subscript Hapi.
  step ltac:(
    erewrite create_event_run;
      [ rewrite Hjson2; reflexivity
      | rewrite get_token_unset by reflexivity;
        erewrite refresh_token_granted by eassumption; reflexivity
      | env_norm; exact Hresp2
      | exact Hok2 ]).
  step ltac:(unfold lift; rewrite Hevent; reflexivity).
  step_refl. step_refl.
  step ltac:(unfold lift; env_norm; rewrite Hstore; reflexivity).
  step_refl. step_refl.
  unfold mret, M_ret. f_equal. f_equal; by rewrite <- !app_assoc.
Qed.

(** ** [run] on a vCon without an asset *)

Lemma snoc2 {A} (l : list A) a b : l ++ [a; b] = (l ++ [a]) ++ [b].
Proof. by rewrite <- app_assoc. Qed.

(** X22. For a vCon without an asset tag, a run in which the server
    grants a token that is still valid at the second call sends three
    requests in this order: token, asset, event. The asset carries the
    attributes computed before tagging; the event goes to the identity
    the asset answer gave, carries the hash of the tagged vCon and the
    original hash, and reuses the token; the vCon is stored with the two
    tags, five lines are logged and the uuid is returned. *)
Theorem run_new_asset
    (vcon_uuid link_name : string) (opts : option (list (string * value)))
    (s : Env) (url id secret api behaviours : value)
    (asset_defaults event_defaults : list (string * value))
    (v : Vcon) (resp1 resp2 resp3 : response) (token_data : list (string * value))
    (access : value) (n : Z) (asset new_id event event_id : value)
    (stored : Redis) :
  let merged := merge_options (default default_options opts) in
  let self := mkAuth url id secret JNone None in
  let asset_name := py_or (vcon_subject v) (JStr ("vcon:" +:+ vcon_uuid)) in
  let asset_attributes :=
    sdict_update asset_defaults [
      ("arc_display_name", asset_name);
      ("document_hash_value", vcon_hash v);
      ("document_version", py_or (vcon_updated_at v) (vcon_created_at v));
      ("subject", JStr vcon_uuid);
      ("vcon_uuid", JStr vcon_uuid)] in
  let asset_post :=
    asset_request api access
      (sdict_update [("arc_display_type", JStr "Publish")] asset_attributes)
      behaviours in
  let v' := add_tag (add_tag v "datatrails_asset_id" new_id)
              "datatrails_asset_name" asset_name in
  let event_attributes :=
    sdict_update event_defaults [
      ("document_hash_value", vcon_hash v');
      ("document_original_hash_value", vcon_hash v);
      ("document_version", py_or (vcon_updated_at v') (vcon_created_at v'));
      ("subject", JStr vcon_uuid);
      ("vcon_uuid", JStr vcon_uuid)] in
  let event_post :=
    event_request api new_id access
      (sdict_update [("arc_display_type", JStr "vCon")] event_attributes) in
  let expiry := (time_at s (clock_reads s) + (n - 300) * 1000000)%Z in
  sdict_get "auth_url" merged = Some url →
  sdict_get "client_id" merged = Some id →
  sdict_get "client_secret" merged = Some secret →
  sdict_get "api_url" merged = Some api →
  sdict_get "behaviours" merged = Some behaviours →
  sdict_get "asset_attributes" merged = Some (JDict asset_defaults) →
  sdict_get "event_attributes" merged = Some (JDict event_defaults) →
  truthy id = true → truthy secret = true →
  get_vcon (redis s) vcon_uuid = Ok (Some v) →
  truthy (get_tag v "datatrails_asset_id") = false →
  server s (sent s) (token_request self) = Ok resp1 →
  ok_status resp1 →
  json resp1 = Ok (JDict token_data) →
  sdict_get "access_token" token_data = Some access →
  sdict_get "expires_in" token_data = Some (JInt n) →
  (-999999999 ≤ (n - 300) / 86400 ≤ 999999999)%Z →
  (0 ≤ expiry ≤ datetime_max)%Z →
  access ≠ JNone →
  (time_at s (S (clock_reads s)) < expiry)%Z →
  server s (sent s ++ [token_request self]) asset_post = Ok resp2 →
  ok_status resp2 →
  json resp2 = Ok asset →
  subscript asset "identity" = Ok new_id →
  server s (sent s ++ [token_request self; asset_post]) event_post = Ok resp3 →
  ok_status resp3 →
  json resp3 = Ok event →
  subscript event "identity" = Ok event_id →
  store_vcon (redis s) v' = Ok stored →
  run vcon_uuid link_name opts s =
    (Ok vcon_uuid,
     mkEnv
       (mkAuth url id secret access (Some expiry))
       (sent s ++ [token_request self; asset_post; event_post])
       (server s) (time_at s) (S (S (clock_reads s)))
       (<[datatrails_dir := 448%Z]> (dir_modes s))
       (<[token_file := "Authorization: Bearer " +:+ str_of access]> (text_files s))
       stored
       (logged s ++ [
          "Starting DataTrails link for vCon: " +:+ vcon_uuid;
          "DataTrails Asset not found: " +:+ str_of (get_tag v "datatrails_asset_id");
          "Creating new DataTrails asset for vCon: " +:+ vcon_uuid;
          "Created DataTrails Event: " +:+ str_of event_id;
          "Finished DataTrails asset link for vCon: " +:+ vcon_uuid])).
Proof.
  intros merged self asset_name asset_attributes asset_post v' event_attributes
    event_post expiry
    Hurl Hid Hsecret Hapi Hbehaviours Hassets Hevents Tid Tsecret Hget Htag
    Hresp1 Hok1 Hjson1 Haccess Hexpires Hdelta Hrange Hset Hvalid
    Hresp2 Hok2 Hjson2 Hasset Hresp3 Hok3 Hjson3 Hevent Hstore.
  subst self asset_name asset_attributes asset_post v' event_attributes event_post
    expiry.
  destruct s as [a0 requests srv clock reads dirs texts rds lines]. env_norm.
  rewrite (snoc2 requests) in Hresp3.
  unfold run. fold merged.
  run_to_vcon Hurl Hid Hsecret Tid Tsecret Hget.
  rewrite Htag. cbn [negb]. cbv beta iota.
  step ltac:(
    step_refl; step_subscript Hassets; step_refl; step_refl;
    step_subscript Hapi; step_subscript Hbehaviours;
    step ltac:(
      erewrite create_asset_run;
        [ rewrite Hjson2; reflexivity
        | rewrite get_token_unset by reflexivity;
          erewrite refresh_token_granted by eassumption; reflexivity
        | env_norm; exact Hresp2
        | exact Hok2 ]);
    step ltac:(unfold lift; rewrite Hasset; reflexivity);
    reflexivity).
  cbv beta iota.
  step_subscript Hevents. step_refl. step_subscript Hapi.
  match goal with
  | |- context [(_ ≫= _) ?E] => set (E1 := E)
  end.
  assert (get_token E1 = (Ok access, set_clock_reads (S (S reads)) E1)) as Htoken.
  { rewrite (get_token_set E1 (clock reads + (n - 300) * 1000000)%Z)
      by (subst E1; env_norm; done).
    subst E1. env_norm.
    by replace (Z.leb (clock reads + (n - 300) * 1000000) (clock (S reads)))
      with false by (symmetry; apply Z.leb_gt; lia). }
  subst E1.
  step ltac:(
    erewrite create_event_run;
      [ rewrite Hjson3; reflexivity
      | exact Htoken
      | env_norm; exact Hresp3
      | exact Hok3 ]).
  step ltac:(unfold lift; rewrite Hevent; reflexivity).
  step_refl. step_refl.
  step ltac:(unfold lift; env_norm; rewrite Hstore; reflexivity).
  step_refl. step_refl.
  unfold mret, M_ret. f_equal. f_equal; by rewrite <- !app_assoc.
Qed.

(** X23. When the asset has been created and the event request is then
    answered with an error status, [run] ends in [HTTPError]: the asset
    request has been sent, but Redis is as it was, so the vCon carries no
    tag of the asset that now exists. *)
Theorem run_leaves_new_asset_untagged_when_event_fails
    (vcon_uuid link_name : string) (opts : option (list (string * value)))
    (s : Env) (url id secret api behaviours : value)
    (asset_defaults event_defaults : list (string * value))
    (v : Vcon) (resp1 resp2 resp3 : response) (token_data : list (string * value))
    (access : value) (n : Z) (asset new_id : value) :
  let merged := merge_options (default default_options opts) in
  let self := mkAuth url id secret JNone None in
  let asset_name := py_or (vcon_subject v) (JStr ("vcon:" +:+ vcon_uuid)) in
  let asset_attributes :=
    sdict_update asset_defaults [
      ("arc_display_name", asset_name);
      ("document_hash_value", vcon_hash v);
      ("document_version", py_or (vcon_updated_at v) (vcon_created_at v));
      ("subject", JStr vcon_uuid);
      ("vcon_uuid", JStr vcon_uuid)] in
  let asset_post :=
    asset_request api access
      (sdict_update [("arc_display_type", JStr "Publish")] asset_attributes)
      behaviours in
  let v' := add_tag (add_tag v "datatrails_asset_id" new_id)
              "datatrails_asset_name" asset_name in
  let event_attributes :=
    sdict_update event_defaults [
      ("document_hash_value", vcon_hash v');
      ("document_original_hash_value", vcon_hash v);
      ("document_version", py_or (vcon_updated_at v') (vcon_created_at v'));
      ("subject", JStr vcon_uuid);
      ("vcon_uuid", JStr vcon_uuid)] in
  let event_post :=
    event_request api new_id access
      (sdict_update [("arc_display_type", JStr "vCon")] event_attributes) in
  let expiry := (time_at s (clock_reads s) + (n - 300) * 1000000)%Z in
  sdict_get "auth_url" merged = Some url →
  sdict_get "client_id" merged = Some id →
  sdict_get "client_secret" merged = Some secret →
  sdict_get "api_url" merged = Some api →
  sdict_get "behaviours" merged = Some behaviours →
  sdict_get "asset_attributes" merged = Some (JDict asset_defaults) →
  sdict_get "event_attributes" merged = Some (JDict event_defaults) →
  truthy id = true → truthy secret = true →
  get_vcon (redis s) vcon_uuid = Ok (Some v) →
  truthy (get_tag v "datatrails_asset_id") = false →
  server s (sent s) (token_request self) = Ok resp1 →
  ok_status resp1 →
  json resp1 = Ok (JDict token_data) →
  sdict_get "access_token" token_data = Some access →
  sdict_get "expires_in" token_data = Some (JInt n) →
  (-999999999 ≤ (n - 300) / 86400 ≤ 999999999)%Z →
  (0 ≤ expiry ≤ datetime_max)%Z →
  access ≠ JNone →
  (time_at s (S (clock_reads s)) < expiry)%Z →
  server s (sent s ++ [token_request self]) asset_post = Ok resp2 →
  ok_status resp2 →
  json resp2 = Ok asset →
  subscript asset "identity" = Ok new_id →
  server s (sent s ++ [token_request self; asset_post]) event_post = Ok resp3 →
  (400 ≤ status_code resp3 < 600)%Z →
  (run vcon_uuid link_name opts s).1 = Raise (HTTPError (status_code resp3)) ∧
  sent (run vcon_uuid link_name opts s).2
    = sent s ++ [token_request self; asset_post; event_post] ∧
  redis (run vcon_uuid link_name opts s).2 = redis s.
Proof.
  intros merged self asset_name asset_attributes asset_post v' event_attributes
    event_post expiry
    Hurl Hid Hsecret Hapi Hbehaviours Hassets Hevents Tid Tsecret Hget Htag
    Hresp1 Hok1 Hjson1 Haccess Hexpires Hdelta Hrange Hset Hvalid
    Hresp2 Hok2 Hjson2 Hasset Hresp3 Herr3.
  subst self asset_name asset_attributes asset_post v' event_attributes event_post
    expiry.
  destruct s as [a0 requests srv clock reads dirs texts rds lines]. env_norm.
  rewrite (snoc2 requests) in Hresp3.
  unfold run. fold merged.
  run_to_vcon Hurl Hid Hsecret Tid Tsecret Hget.
  rewrite Htag. cbn [negb]. cbv beta iota.
  step ltac:(
    step_refl; step_subscript Hassets; step_refl; step_refl;
    step_subscript Hapi; step_subscript Hbehaviours;
    step ltac:(
      erewrite create_asset_run;
        [ rewrite Hjson2; reflexivity
        | rewrite get_token_unset by reflexivity;
          erewrite refresh_token_granted by eassumption; reflexivity
        | env_norm; exact Hresp2
        | exact Hok2 ]);
    step ltac:(unfold lift; rewrite Hasset; reflexivity);
    reflexivity).
  cbv beta iota.
  step_subscript Hevents. step_refl. step_subscript Hapi.
  match goal with
  | |- context [(_ ≫= _) ?E] => set (E1 := E)
  end.
  assert (get_token E1 = (Ok access, set_clock_reads (S (S reads)) E1)) as Htoken.
  { rewrite (get_token_set E1 (clock reads + (n - 300) * 1000000)%Z)
      by (subst E1; env_norm; done).
    subst E1. env_norm.
    by replace (Z.leb (clock reads + (n - 300) * 1000000) (clock (S reads)))
      with false by (symmetry; apply Z.leb_gt; lia). }
  subst E1.
  erewrite dt_bind_Raise; cycle 1.
  { unfold create_event.
    step ltac:(exact Htoken). step_refl.
    step ltac:(unfold requests_post; env_norm; rewrite Hresp3; reflexivity).
    erewrite dt_bind_Raise; [|by apply raise_for_status_error].
    reflexivity. }
  env_norm. cbn [fst snd]. split; [done|]. split; [|done].
  by rewrite <- !app_assoc.
Qed.

(** ** Options and attributes *)

(** X24. Options override the defaults key by key and only at the top
    level: a key given in [opts] has the value of [opts], whole; any
    other key has its default. *)
Theorem merge_options_lookup (opts : list (string * value)) (k : string) :
  NoDup opts.*1 →
  sdict_get k (merge_options opts)
    = match sdict_get k opts with
      | Some v => Some v
      | None => sdict_get k default_options
      end.
Proof. intros Hnd. by apply sdict_get_update. Qed.






(** ** [create_asset] and [create_event]: a refused request *)

(** X26. [create_asset] sends its request with the bearer token that
    [get_token] returned, and an answer with a status from 400 to 599
    ends it in [HTTPError] with that status, the body unread. *)
Theorem create_asset_error_status
    (api behaviours bearer : value) (d : list (string * value))
    (s s1 : Env) (resp : response) :
  get_token s = (Ok bearer, s1) →
  server s1 (sent s1)
    (asset_request api bearer
       (sdict_update [("arc_display_type", JStr "Publish")] d) behaviours) = Ok resp →
  (400 ≤ status_code resp < 600)%Z →
  create_asset api (JDict d) behaviours s =
    (Raise (HTTPError (status_code resp)),
     set_sent (sent s1 ++ [asset_request api bearer
                             (sdict_update [("arc_display_type", JStr "Publish")] d)
                             behaviours]) s1).
Proof.
  intros Htoken Hresp Herr. unfold create_asset.
  erewrite dt_bind_Ok; [|exact Htoken].
  erewrite dt_bind_Ok; [|reflexivity].
  erewrite dt_bind_Ok; [|unfold requests_post; rewrite Hresp; reflexivity].
  erewrite dt_bind_Raise; [|by apply raise_for_status_error].
  reflexivity.
Qed.

(** X27. [create_event] posts to [api_url + asset_id + "/events"] with
    the bearer token that [get_token] returned, and an answer with a
    status from 400 to 599 ends it in [HTTPError] with that status, the
    body unread. *)
Theorem create_event_error_status
    (api asset_id bearer : value) (d : list (string * value))
    (s s1 : Env) (resp : response) :
  get_token s = (Ok bearer, s1) →
  server s1 (sent s1)
    (event_request api asset_id bearer
       (sdict_update [("arc_display_type", JStr "vCon")] d)) = Ok resp →
  (400 ≤ status_code resp < 600)%Z →
  create_event api asset_id (JDict d) s =
    (Raise (HTTPError (status_code resp)),
     set_sent (sent s1 ++ [event_request api asset_id bearer
                             (sdict_update [("arc_display_type", JStr "vCon")] d)]) s1).
Proof.
  intros Htoken Hresp Herr. unfold create_event.
  erewrite dt_bind_Ok; [|exact Htoken].
  erewrite dt_bind_Ok; [|reflexivity].
  erewrite dt_bind_Ok; [|unfold requests_post; rewrite Hresp; reflexivity].
  erewrite dt_bind_Raise; [|by apply raise_for_status_error].
  reflexivity.
Qed.

End LinkFacts.
(** ** Runs on the sample inputs *)

Lemma run_rejects_missing_credentials_witness :
  (run (ext := sample_externals) "u1" "link" (Some [("client_id", JStr "")])
     (sample_env sample_server ∅)).1
  = Raise (ValueError "DataTrails client ID and client secret must be provided").
Proof.
  rewrite (run_rejects_missing_credentials (ext := sample_externals) "u1" "link"
             (Some [("client_id", JStr "")]) (sample_env sample_server ∅)
             (JStr "") (JStr "<DATATRAILS_CLIENT_SECRET>")).
  - reflexivity.
  - reflexivity.
  - reflexivity.
  - reflexivity.
Defined.

Lemma run_vcon_not_found_witness :
  (run (ext := sample_externals) "u2" "link" None (sample_env sample_server ∅)).1
  = Raise (HTTPException 404 "vCon not found: u2").
Proof.
  rewrite (run_vcon_not_found (ext := sample_externals) "u2" "link" None
             (sample_env sample_server ∅)
             (JStr "https://app.datatrails.ai/archivist/iam/v1/appidp/token")
             (JStr "<DATATRAILS_CLIENT_ID>") (JStr "<DATATRAILS_CLIENT_SECRET>")).
  - reflexivity.
  - reflexivity.
  - reflexivity.
  - reflexivity.
  - reflexivity.
  - reflexivity.
  - reflexivity.
Defined.

Lemma get_token_reuses_valid_token_witness :
  (get_token (ext := sample_externals) valid_token_env).1 = Ok (JStr "t0") ∧
  sent (get_token (ext := sample_externals) valid_token_env).2 = [].
Proof.
  rewrite (get_token_reuses_valid_token (ext := sample_externals) valid_token_env
             63000003300000000%Z).
  - split; reflexivity.
  - discriminate.
  - reflexivity.
  - simpl. lia.
Defined.

Lemma get_token_fetches_when_unset_witness :
  (get_token (ext := sample_externals) (sample_env sample_server ∅)).1
  = Ok (JStr "t0").
Proof.
  rewrite (get_token_fetches_when_unset (ext := sample_externals)
             (sample_env sample_server ∅)
             (mkResponse 200
                (Ok (JDict [("access_token", JStr "t0"); ("expires_in", JInt 3600)])))
             [("access_token", JStr "t0"); ("expires_in", JInt 3600)]
             (JStr "t0") 3600).
  - reflexivity.
  - reflexivity.
  - reflexivity.
  - unfold ok_status. simpl. lia.
  - reflexivity.
  - reflexivity.
  - reflexivity.
  - vm_compute. split; discriminate.
  - vm_compute. split; discriminate.
Defined.

Lemma get_token_http_error_witness :
  (get_token (ext := sample_externals) (sample_env refusing_server ∅)).1
  = Raise (HTTPError 401).
Proof.
  rewrite (get_token_http_error (ext := sample_externals)
             (sample_env refusing_server ∅)
             (mkResponse 401 (Raise (ExternalError "JSONDecodeError")))).
  - reflexivity.
  - reflexivity.
  - reflexivity.
  - simpl. lia.
Defined.

Lemma get_token_refetches_when_expired_witness :
  sent (get_token (ext := sample_externals) expired_token_env).2
  = [token_request (auth expired_token_env)].
Proof.
  rewrite (get_token_refetches_when_expired (ext := sample_externals)
             expired_token_env 0).
  - reflexivity.
  - discriminate.
  - reflexivity.
  - simpl. lia.
Defined.

Lemma token_without_expiry_breaks_the_object_witness :
  (get_token (ext := sample_externals) (sample_env careless_server ∅)).1
    = Raise (KeyError "expires_in") ∧
  (get_token (ext := sample_externals)
     (get_token (ext := sample_externals) (sample_env careless_server ∅)).2).1
    = Raise TypeError.
Proof.
  destruct (token_without_expiry_breaks_the_object (ext := sample_externals)
              (sample_env careless_server ∅)
              (mkResponse 200 (Ok (JDict [("access_token", JStr "t0")])))
              [("access_token", JStr "t0")] (JStr "t0"))
    as (Hfirst & _ & _ & _ & Hsecond & _).
  - reflexivity.
  - reflexivity.
  - reflexivity.
  - unfold ok_status. simpl. lia.
  - reflexivity.
  - reflexivity.
  - reflexivity.
  - discriminate.
  - split; [exact Hfirst | exact Hsecond].
Defined.

Lemma merge_options_lookup_witness :
  sdict_get "client_id" (merge_options [("client_id", JStr "me")]) = Some (JStr "me") ∧
  sdict_get "event_type" (merge_options [("client_id", JStr "me")])
    = Some (JStr "Update").
Proof.
  split.
  - rewrite (merge_options_lookup [("client_id", JStr "me")] "client_id").
    + reflexivity.
    + apply NoDup_singleton.
  - rewrite (merge_options_lookup [("client_id", JStr "me")] "event_type").
    + reflexivity.
    + apply NoDup_singleton.
Defined.


Lemma create_asset_error_status_witness :
  (create_asset (ext := sample_externals) (JStr "https://api.example/v2")
     (JDict []) (JList []) valid_token_env).1
  = Raise (HTTPError 401).
Proof.
  rewrite (create_asset_error_status (ext := sample_externals)
             (JStr "https://api.example/v2") (JList []) (JStr "t0") []
             valid_token_env (set_clock_reads 1 valid_token_env)
             (mkResponse 401 (Raise (ExternalError "JSONDecodeError")))).
  - reflexivity.
  - reflexivity.
  - reflexivity.
  - simpl. lia.
Defined.

Lemma create_event_error_status_witness :
  (create_event (ext := sample_externals) (JStr "https://api.example/v2/")
     (JStr "assets/7") (JDict []) valid_token_env).1
  = Raise (HTTPError 401).
Proof.
  rewrite (create_event_error_status (ext := sample_externals)
             (JStr "https://api.example/v2/") (JStr "assets/7") (JStr "t0") []
             valid_token_env (set_clock_reads 1 valid_token_env)
             (mkResponse 401 (Raise (ExternalError "JSONDecodeError")))).
  - reflexivity.
  - reflexivity.
  - reflexivity.
  - simpl. lia.
Defined.

Lemma run_existing_asset_witness :
  (run (ext := sample_externals) "u1" "link" None
     (sample_env sample_server {["u1" := tagged_vcon]})).1 = Ok "u1" ∧
  length (sent (run (ext := sample_externals) "u1" "link" None
                  (sample_env sample_server {["u1" := tagged_vcon]})).2) = 2.
Proof.
  rewrite (run_existing_asset (ext := sample_externals) "u1" "link" None
             (sample_env sample_server {["u1" := tagged_vcon]})
             (JStr "https://app.datatrails.ai/archivist/iam/v1/appidp/token")
             (JStr "<DATATRAILS_CLIENT_ID>") (JStr "<DATATRAILS_CLIENT_SECRET>")
             (JStr "https://app.datatrails.ai/archivist/v2/")
             [("arc_description", JStr "DataTrails Conserver Link");
              ("document_hash_alg", JStr "SHA-256")]
             tagged_vcon
             (mkResponse 200
                (Ok (JDict [("access_token", JStr "t0"); ("expires_in", JInt 3600)])))
             (mkResponse 201 (Ok (JDict [("identity", JStr "assets/1")])))
             [("access_token", JStr "t0"); ("expires_in", JInt 3600)]
             (JStr "t0") 3600
             (JDict [("identity", JStr "assets/1")]) (JStr "assets/1")
             (<["u1" := tagged_vcon]> {["u1" := tagged_vcon]})).
  - split; reflexivity.
  - reflexivity.
  - reflexivity.
  - reflexivity.
  - reflexivity.
  - reflexivity.
  - reflexivity.
  - reflexivity.
  - vm_compute. reflexivity.
  - reflexivity.
  - reflexivity.
  - unfold ok_status. simpl. lia.
  - reflexivity.
  - reflexivity.
  - reflexivity.
  - vm_compute. split; discriminate.
  - vm_compute. split; discriminate.
  - reflexivity.
  - unfold ok_status. simpl. lia.
  - reflexivity.
  - reflexivity.
  - reflexivity.
Defined.

Lemma run_new_asset_witness :
  (run (ext := sample_externals) "u1" "link" None
     (sample_env sample_server {["u1" := fresh_vcon]})).1 = Ok "u1" ∧
  length (sent (run (ext := sample_externals) "u1" "link" None
                  (sample_env sample_server {["u1" := fresh_vcon]})).2) = 3.
Proof.
  rewrite (run_new_asset (ext := sample_externals) "u1" "link" None
             (sample_env sample_server {["u1" := fresh_vcon]})
             (JStr "https://app.datatrails.ai/archivist/iam/v1/appidp/token")
             (JStr "<DATATRAILS_CLIENT_ID>") (JStr "<DATATRAILS_CLIENT_SECRET>")
             (JStr "https://app.datatrails.ai/archivist/v2/")
             (JList [JStr "RecordEvidence"])
             [("arc_description", JStr "DataTrails Conserver Link")]
             [("arc_description", JStr "DataTrails Conserver Link");
              ("document_hash_alg", JStr "SHA-256")]
             fresh_vcon
             (mkResponse 200
                (Ok (JDict [("access_token", JStr "t0"); ("expires_in", JInt 3600)])))
             (mkResponse 201 (Ok (JDict [("identity", JStr "assets/1")])))
             (mkResponse 201 (Ok (JDict [("identity", JStr "assets/1")])))
             [("access_token", JStr "t0"); ("expires_in", JInt 3600)]
             (JStr "t0") 3600
             (JDict [("identity", JStr "assets/1")]) (JStr "assets/1")
             (JDict [("identity", JStr "assets/1")]) (JStr "assets/1")
             (<["u1" := add_tag (Externals := sample_externals)
                          (add_tag (Externals := sample_externals) fresh_vcon
                             "datatrails_asset_id" (JStr "assets/1"))
                          "datatrails_asset_name" (JStr "vcon:u1")]>
                {["u1" := fresh_vcon]})).
  - split; reflexivity.
  - reflexivity.
  - reflexivity.
  - reflexivity.
  - reflexivity.
  - reflexivity.
  - reflexivity.
  - reflexivity.
  - reflexivity.
  - reflexivity.
  - vm_compute. reflexivity.
  - reflexivity.
  - reflexivity.
  - unfold ok_status. simpl. lia.
  - reflexivity.
  - reflexivity.
  - reflexivity.
  - vm_compute. split; discriminate.
  - vm_compute. split; discriminate.
  - discriminate.
  - vm_compute. reflexivity.
  - reflexivity.
  - unfold ok_status. simpl. lia.
  - reflexivity.
  - reflexivity.
  - reflexivity.
  - unfold ok_status. simpl. lia.
  - reflexivity.
  - reflexivity.
  - reflexivity.
Defined.

Lemma run_leaves_new_asset_untagged_when_event_fails_witness :
  (run (ext := sample_externals) "u1" "link" None
     (sample_env flaky_server {["u1" := fresh_vcon]})).1 = Raise (HTTPError 500) ∧
  redis (run (ext := sample_externals) "u1" "link" None
           (sample_env flaky_server {["u1" := fresh_vcon]})).2
    = {["u1" := fresh_vcon]}.
Proof.
  destruct (run_leaves_new_asset_untagged_when_event_fails
              (ext := sample_externals) "u1" "link" None
              (sample_env flaky_server {["u1" := fresh_vcon]})
              (JStr "https://app.datatrails.ai/archivist/iam/v1/appidp/token")
              (JStr "<DATATRAILS_CLIENT_ID>") (JStr "<DATATRAILS_CLIENT_SECRET>")
              (JStr "https://app.datatrails.ai/archivist/v2/")
              (JList [JStr "RecordEvidence"])
              [("arc_description", JStr "DataTrails Conserver Link")]
              [("arc_description", JStr "DataTrails Conserver Link");
               ("document_hash_alg", JStr "SHA-256")]
              fresh_vcon
              (mkResponse 200
                 (Ok (JDict [("access_token", JStr "t0"); ("expires_in", JInt 3600)])))
              (mkResponse 201 (Ok (JDict [("identity", JStr "assets/1")])))
              (mkResponse 500 (Raise (ExternalError "JSONDecodeError")))
              [("access_token", JStr "t0"); ("expires_in", JInt 3600)]
              (JStr "t0") 3600
              (JDict [("identity", JStr "assets/1")]) (JStr "assets/1"))
    as (Hraised & _ & Hredis).
  - reflexivity.
  - reflexivity.
  - reflexivity.
  - reflexivity.
  - reflexivity.
  - reflexivity.
  - reflexivity.
  - reflexivity.
  - reflexivity.
  - vm_compute. reflexivity.
  - reflexivity.
  - reflexivity.
  - unfold ok_status. simpl. lia.
  - reflexivity.
  - reflexivity.
  - reflexivity.
  - vm_compute. split; discriminate.
  - vm_compute. split; discriminate.
  - discriminate.
  - vm_compute. reflexivity.
  - reflexivity.
  - unfold ok_status. simpl. lia.
  - reflexivity.
  - reflexivity.
  - reflexivity.
  - simpl. lia.
  - split; [exact Hraised | exact Hredis].
Defined.

End DataTrailsFacts.
